(** * helm-browser: the navigation state machine of [main.go]

    A shallow embedding of the Bubble Tea model of [main.go]: the [model]
    record, the pagination helpers, the [Update] transition function,
    [View] (its row loop, and the frame without the presentation), the
    closures of the five commands and the event loop that runs them,
    followed by the properties of the specification that concern them and
    by further properties of the code. *)

From Stdlib Require Import ZArith List String Ascii Bool Lia.
Import ListNotations.

Open Scope string_scope.
Open Scope Z_scope.

(** ** Go's [int]

    Every release target of the Makefile is a 64-bit platform (amd64,
    arm64), so [int] is a 64-bit two's-complement integer.  Values are
    carried as [Z]; each arithmetic operation wraps. *)

Module GoInt.

Definition min_int : Z := - 2 ^ 63.
Definition max_int : Z := 2 ^ 63 - 1.

Definition in_range (z : Z) : Prop := min_int <= z <= max_int.

Definition wrap (z : Z) : Z := (z + 2 ^ 63) mod 2 ^ 64 - 2 ^ 63.

Definition add (a b : Z) : Z := wrap (a + b).
Definition sub (a b : Z) : Z := wrap (a - b).
Definition mul (a b : Z) : Z := wrap (a * b).
(** Go's [/] and [%] truncate towards zero. *)
Definition quot (a b : Z) : Z := wrap (Z.quot a b).
Definition rem (a b : Z) : Z := Z.rem a b.

(** [len(s)] of a slice. *)
Definition len {A : Type} (l : list A) : Z := Z.of_nat (List.length l).

(** [s[i]]: [None] stands for the run-time panic "index out of range". *)
Definition index {A : Type} (l : list A) (i : Z) : option A :=
  if (i <? 0) || (len l <=? i) then None else nth_error l (Z.to_nat i).

End GoInt.

Import GoInt.

(** ** The part of the Go library the program calls *)

Definition is_digit (c : ascii) : bool :=
  let n := nat_of_ascii c in ((48 <=? n) && (n <=? 57))%nat.

Definition digit_val (c : ascii) : Z := Z.of_nat (nat_of_ascii c) - 48.

Fixpoint parse_digits (s : string) (acc : Z) : option Z :=
  match s with
  | EmptyString => Some acc
  | String c r =>
      if is_digit c then parse_digits r (acc * 10 + digit_val c) else None
  end.

(** [strconv.Atoi]: an optional sign, then one or more decimal digits;
    [None] is the error result (syntax or range). *)
Definition Atoi (s : string) : option Z :=
  match s with
  | EmptyString => None
  | String c r =>
      let neg := Ascii.eqb c "-" in
      let body := if neg || Ascii.eqb c "+" then r else s in
      match body with
      | EmptyString => None
      | _ =>
          match parse_digits body 0 with
          | None => None
          | Some n =>
              let v := if neg then - n else n in
              if (min_int <=? v) && (v <=? max_int) then Some v else None
          end
      end
  end.

(** [strings.Split(s, sep)] for a one-byte separator: the pieces between
    the separators, never an empty slice. *)
Fixpoint Split (s : string) (sep : ascii) : list string :=
  match s with
  | EmptyString => [EmptyString]
  | String c r =>
      if Ascii.eqb c sep then EmptyString :: Split r sep
      else
        match Split r sep with
        | [] => [String c EmptyString]
        | p :: ps => String c p :: ps
        end
  end.

(** [strings.TrimPrefix]. *)
Definition TrimPrefix (s pre : string) : string :=
  if String.prefix pre s
  then String.substring (String.length pre) (String.length s - String.length pre) s
  else s.

(** ** Data model *)

Inductive state : Set :=
| stateRepoUpdate
| stateRepoList
| stateChartList
| stateVersionList
| stateDownload
| stateError
| stateComplete.

Definition state_eqb (a b : state) : bool :=
  match a, b with
  | stateRepoUpdate, stateRepoUpdate
  | stateRepoList, stateRepoList
  | stateChartList, stateChartList
  | stateVersionList, stateVersionList
  | stateDownload, stateDownload
  | stateError, stateError
  | stateComplete, stateComplete => true
  | _, _ => false
  end.

Definition pageSize : Z := 10.

Record HelmRepo : Set := mkRepo {
  repo_Name : string;
  repo_URL : string
}.

Record HelmChart : Set := mkChart {
  chart_Name : string;
  chart_Version : string;
  chart_AppVersion : string;
  chart_Description : string
}.

Record HelmVersion : Set := mkVersion {
  version_Name : string;
  version_Version : string;
  version_AppVersion : string;
  version_Created : string
}.

(** The [model] struct.  The field [state] is [m_state] here, the type
    keeps the name. *)
Record model : Set := mkModel {
  m_state : state;
  repos : list HelmRepo;
  charts : list HelmChart;
  versions : list HelmVersion;
  selectedRepo : Z;
  selectedChart : Z;
  selectedVersion : Z;
  cursor : Z;
  loading : bool;
  error : string;
  message : string
}.

(** Field assignments [m.f = v]. *)
Definition set_state (s : state) (m : model) : model :=
  mkModel s (repos m) (charts m) (versions m) (selectedRepo m)
          (selectedChart m) (selectedVersion m) (cursor m) (loading m)
          (error m) (message m).
Definition set_repos (l : list HelmRepo) (m : model) : model :=
  mkModel (m_state m) l (charts m) (versions m) (selectedRepo m)
          (selectedChart m) (selectedVersion m) (cursor m) (loading m)
          (error m) (message m).
Definition set_charts (l : list HelmChart) (m : model) : model :=
  mkModel (m_state m) (repos m) l (versions m) (selectedRepo m)
          (selectedChart m) (selectedVersion m) (cursor m) (loading m)
          (error m) (message m).
Definition set_versions (l : list HelmVersion) (m : model) : model :=
  mkModel (m_state m) (repos m) (charts m) l (selectedRepo m)
          (selectedChart m) (selectedVersion m) (cursor m) (loading m)
          (error m) (message m).
Definition set_selectedRepo (i : Z) (m : model) : model :=
  mkModel (m_state m) (repos m) (charts m) (versions m) i
          (selectedChart m) (selectedVersion m) (cursor m) (loading m)
          (error m) (message m).
Definition set_selectedChart (i : Z) (m : model) : model :=
  mkModel (m_state m) (repos m) (charts m) (versions m) (selectedRepo m)
          i (selectedVersion m) (cursor m) (loading m)
          (error m) (message m).
Definition set_selectedVersion (i : Z) (m : model) : model :=
  mkModel (m_state m) (repos m) (charts m) (versions m) (selectedRepo m)
          (selectedChart m) i (cursor m) (loading m)
          (error m) (message m).
Definition set_cursor (i : Z) (m : model) : model :=
  mkModel (m_state m) (repos m) (charts m) (versions m) (selectedRepo m)
          (selectedChart m) (selectedVersion m) i (loading m)
          (error m) (message m).
Definition set_loading (b : bool) (m : model) : model :=
  mkModel (m_state m) (repos m) (charts m) (versions m) (selectedRepo m)
          (selectedChart m) (selectedVersion m) (cursor m) b
          (error m) (message m).
Definition set_error (e : string) (m : model) : model :=
  mkModel (m_state m) (repos m) (charts m) (versions m) (selectedRepo m)
          (selectedChart m) (selectedVersion m) (cursor m) (loading m)
          e (message m).
Definition set_message (e : string) (m : model) : model :=
  mkModel (m_state m) (repos m) (charts m) (versions m) (selectedRepo m)
          (selectedChart m) (selectedVersion m) (cursor m) (loading m)
          (error m) e.

(** [initialModel]: every other field has Go's zero value. *)
Definition initialModel : model :=
  mkModel stateRepoUpdate [] [] [] 0 0 0 0 true "" "".

(** ** Pagination helpers *)

Definition getCurrentPage (m : model) : Z := quot (cursor m) pageSize.

Definition getPageStart (m : model) : Z := mul (getCurrentPage m) pageSize.

Definition getPageEnd (m : model) (totalItems : Z) : Z :=
  let end_ := add (getPageStart m) pageSize in
  if totalItems <? end_ then totalItems else end_.

Definition getCursorInPage (m : model) : Z := rem (cursor m) pageSize.

(** ** Messages and commands *)

(** The messages [Update] dispatches on.  A [tea.KeyMsg] is carried by the
    text of its [String()], the only thing [Update] reads of it;
    [otherMsg] is any message type the type switch has no case for. *)
Inductive Msg : Set :=
| KeyMsg (key : string)
| repoUpdateMsg
| reposLoadedMsg (rs : list HelmRepo)
| chartsLoadedMsg (cs : list HelmChart)
| versionsLoadedMsg (vs : list HelmVersion)
| downloadCompleteMsg (filename : string)
| errorMsg (text : string)
| otherMsg.

(** The commands [Update] and [Init] return; [Quit] is [tea.Quit]. *)
Inductive Cmd : Set :=
| Quit
| updateRepos
| loadRepos
| loadCharts (repoName : string)
| loadVersions (chartName : string)
| downloadValues (chartName version : string).

(** One [case "a", "b":] label list of the switch on [msg.String()]. *)
Definition key_in (k : string) (labels : list string) : bool :=
  existsb (String.eqb k) labels.

(** ** [Update]

    The result is [None] when the Go code panics (a slice indexed out of
    range), otherwise the new model and the command returned ([None] for
    a nil [tea.Cmd]).  The selections below are the three [if] bodies
    shared by "enter"/" " and the number shortcuts, with the index they
    record as a parameter. *)

Definition selectRepo (m : model) (i : Z) : option (model * option Cmd) :=
  let m := set_selectedRepo i m in
  let m := set_cursor 0 m in
  let m := set_loading true m in
  let m := set_state stateChartList m in
  match index (repos m) (selectedRepo m) with
  | Some r => Some (m, Some (loadCharts (repo_Name r)))
  | None => None
  end.

Definition selectChart (m : model) (i : Z) : option (model * option Cmd) :=
  let m := set_selectedChart i m in
  let m := set_cursor 0 m in
  let m := set_loading true m in
  let m := set_state stateVersionList m in
  match index (charts m) (selectedChart m) with
  | Some c => Some (m, Some (loadVersions (chart_Name c)))
  | None => None
  end.

Definition selectVersion (m : model) (i : Z) : option (model * option Cmd) :=
  let m := set_selectedVersion i m in
  let m := set_loading true m in
  let m := set_state stateDownload m in
  match index (versions m) (selectedVersion m) with
  | Some v => Some (m, Some (downloadValues (version_Name v) (version_Version v)))
  | None => None
  end.

(** [case "up", "k":] *)
Definition keyUp (m : model) : option (model * option Cmd) :=
  match m_state m with
  | stateRepoList =>
      Some (if 0 <? cursor m then set_cursor (sub (cursor m) 1) m else m, None)
  | stateChartList =>
      Some (if 0 <? cursor m then set_cursor (sub (cursor m) 1) m else m, None)
  | stateVersionList =>
      Some (if 0 <? cursor m then set_cursor (sub (cursor m) 1) m else m, None)
  | _ => Some (m, None)
  end.

(** [case "down", "j":] *)
Definition keyDown (m : model) : option (model * option Cmd) :=
  match m_state m with
  | stateRepoList =>
      Some (if cursor m <? sub (len (repos m)) 1
            then set_cursor (add (cursor m) 1) m else m, None)
  | stateChartList =>
      Some (if cursor m <? sub (len (charts m)) 1
            then set_cursor (add (cursor m) 1) m else m, None)
  | stateVersionList =>
      Some (if cursor m <? sub (len (versions m)) 1
            then set_cursor (add (cursor m) 1) m else m, None)
  | _ => Some (m, None)
  end.

(** [case "enter", " ":] *)
Definition keyEnter (m : model) : option (model * option Cmd) :=
  match m_state m with
  | stateRepoList =>
      if 0 <? len (repos m) then selectRepo m (cursor m) else Some (m, None)
  | stateChartList =>
      if 0 <? len (charts m) then selectChart m (cursor m) else Some (m, None)
  | stateVersionList =>
      if 0 <? len (versions m) then selectVersion m (cursor m) else Some (m, None)
  | stateComplete => Some (m, Some Quit)
  | _ => Some (m, None)
  end.

(** [case "backspace", "esc":] *)
Definition keyBack (m : model) : option (model * option Cmd) :=
  match m_state m with
  | stateChartList =>
      let m := set_state stateRepoList m in
      let m := set_cursor (selectedRepo m) m in
      let m := set_charts [] m in
      Some (m, None)
  | stateVersionList =>
      let m := set_state stateChartList m in
      let m := set_cursor (selectedChart m) m in
      let m := set_versions [] m in
      Some (m, None)
  | stateComplete => Some (m, Some Quit)
  | _ => Some (m, None)
  end.

(** The [switch m.state] under the number-shortcut guard. *)
Definition numberShortcut (m : model) (num : Z) : option (model * option Cmd) :=
  match m_state m with
  | stateRepoList =>
      let pageStart := getPageStart m in
      let absoluteIndex := sub (add pageStart num) 1 in
      if absoluteIndex <? len (repos m) then selectRepo m absoluteIndex
      else Some (m, None)
  | stateChartList =>
      let pageStart := getPageStart m in
      let absoluteIndex := sub (add pageStart num) 1 in
      if absoluteIndex <? len (charts m) then selectChart m absoluteIndex
      else Some (m, None)
  | stateVersionList =>
      let pageStart := getPageStart m in
      let absoluteIndex := sub (add pageStart num) 1 in
      if absoluteIndex <? len (versions m) then selectVersion m absoluteIndex
      else Some (m, None)
  | _ => Some (m, None)
  end.

(** The [default:] case of the switch on the key. *)
Definition keyDefault (m : model) (k : string) : option (model * option Cmd) :=
  if state_eqb (m_state m) stateComplete then Some (m, Some Quit)
  else if (String.length k =? 1)%nat then
    match Atoi k with
    | Some num =>
        if (1 <=? num) && (num <=? pageSize) then numberShortcut m num
        else Some (m, None)
    | None => Some (m, None)
    end
  else Some (m, None).

Definition Update (m : model) (msg : Msg) : option (model * option Cmd) :=
  match msg with
  | KeyMsg k =>
      if key_in k ["ctrl+c"; "q"] then Some (m, Some Quit)
      else if key_in k ["up"; "k"] then keyUp m
      else if key_in k ["down"; "j"] then keyDown m
      else if key_in k ["enter"; " "] then keyEnter m
      else if key_in k ["backspace"; "esc"] then keyBack m
      else keyDefault m k
  | repoUpdateMsg =>
      let m := set_loading true m in
      Some (m, Some loadRepos)
  | reposLoadedMsg rs =>
      let m := set_repos rs m in
      let m := set_loading false m in
      let m := set_state stateRepoList m in
      let m := set_cursor 0 m in
      Some (m, None)
  | chartsLoadedMsg cs =>
      let m := set_charts cs m in
      let m := set_loading false m in
      let m := set_cursor 0 m in
      Some (m, None)
  | versionsLoadedMsg vs =>
      let m := set_versions vs m in
      let m := set_loading false m in
      let m := set_cursor 0 m in
      Some (m, None)
  | downloadCompleteMsg filename =>
      let m := set_loading false m in
      let m := set_state stateComplete m in
      let m := set_message ("Successfully downloaded: " ++ filename) m in
      Some (m, None)
  | errorMsg text =>
      let m := set_loading false m in
      let m := set_state stateError m in
      let m := set_error text m in
      Some (m, None)
  | otherMsg => Some (m, None)
  end.

(** [Init] *)
Definition Init (m : model) : Cmd := updateRepos.

(** ** The row loop of [View]

    Each list screen renders with
    [for i := start; i < end; i++ { item := list[i]; ... }], marking the
    row with [i == m.cursor].  The loop is run with fuel; [None] is a
    panic of [list[i]] (or fuel exhausted). *)

Record row (A : Type) : Type := mkRow {
  row_index : Z;
  row_item : A;
  row_selected : bool
}.
Arguments mkRow {A} _ _ _.
Arguments row_index {A} _.
Arguments row_item {A} _.
Arguments row_selected {A} _.

Fixpoint rowLoop {A : Type} (fuel : nat) (m : model) (l : list A) (i end_ : Z)
  : option (list (row A)) :=
  match fuel with
  | O => None
  | S fuel' =>
      if i <? end_ then
        match index l i with
        | None => None
        | Some x =>
            match rowLoop fuel' m l (add i 1) end_ with
            | None => None
            | Some rs => Some (mkRow i x (i =? cursor m) :: rs)
            end
        end
      else Some []
  end.

Definition viewRows {A : Type} (m : model) (l : list A) : option (list (row A)) :=
  let start := getPageStart m in
  let end_ := getPageEnd m (len l) in
  rowLoop (S (Z.to_nat (end_ - start))) m l start end_.

(** ** [downloadValues]

    The file name is computed from the last piece of the chart name split
    at "/"; [None] is a panic of [chartParts[len(chartParts)-1]]. *)

Definition valuesFilename (chartName version : string) : option string :=
  let chartParts := Split chartName "/" in
  match index chartParts (sub (len chartParts) 1) with
  | None => None
  | Some chartBaseName =>
      Some (chartBaseName ++ "-" ++ version ++ "-default-values.yaml")
  end.

(** What a command closure does when it is run: it returns a message,
    leaving the listed files (name and content) on disk, or never returns
    because the call it waits for never does, or panics; [tea.Quit] ends
    the program. *)
Inductive cmdResult : Set :=
| Returned (msg : Msg) (files : list (string * string))
| Blocked
| Panicked
| Ended.

(** The outcome of [os.WriteFile name data 0644]: success (the file holds
    [data]), an error with what the file holds afterwards ([None] when it
    was not created, otherwise the possibly empty or partial content left
    by the failed write), or a call that never returns. *)
Inductive writeOutcome : Set :=
| WriteOk
| WriteErr (err : string) (remains : option string)
| WriteBlocks.

(** The closure [downloadValues] returns, run against the two effects it
    performs: [helm show values] ([None] when the subprocess never exits,
    else [inl] the bytes of its output or [inr] the error text) and
    [os.WriteFile]. *)
Definition run_downloadValues
    (helmShow : string -> string -> option (string + string))
    (writeFile : string -> string -> writeOutcome)
    (chartName version : string) : cmdResult :=
  match helmShow chartName version with
  | None => Blocked
  | Some (inr err) => Returned (errorMsg ("Failed to get chart values: " ++ err)) []
  | Some (inl values) =>
      match valuesFilename chartName version with
      | None => Panicked
      | Some filename =>
          match writeFile filename values with
          | WriteBlocks => Blocked
          | WriteErr err remains =>
              Returned (errorMsg ("Failed to write values file: " ++ err))
                       (match remains with
                        | Some partial => [(filename, partial)]
                        | None => []
                        end)
          | WriteOk => Returned (downloadCompleteMsg filename) [(filename, values)]
          end
      end
  end.

(** ** The event loop

    Bubble Tea runs every command [Init] and [Update] return and feeds the
    message it produces back to [Update], interleaved with the key
    presses.  [delivers c msg] says that [msg] is one of the messages the
    closure of command [c] can return (lines 154-246 of [main.go]). *)

Definition delivers (c : Cmd) (msg : Msg) : bool :=
  match c, msg with
  | updateRepos, repoUpdateMsg => true
  | updateRepos, errorMsg t => String.prefix "Failed to update repos: " t
  | loadRepos, reposLoadedMsg _ => true
  | loadRepos, errorMsg t =>
      String.prefix "Failed to list repos: " t
      || String.prefix "Failed to parse repos: " t
  | loadCharts _, chartsLoadedMsg _ => true
  | loadCharts _, errorMsg t =>
      String.prefix "Failed to search charts: " t
      || String.prefix "Failed to parse charts: " t
  | loadVersions _, versionsLoadedMsg _ => true
  | loadVersions _, errorMsg t =>
      String.prefix "Failed to search versions: " t
      || String.prefix "Failed to parse versions: " t
  | downloadValues c v, downloadCompleteMsg f =>
      match valuesFilename c v with
      | Some f' => String.eqb f f'
      | None => false
      end
  | downloadValues _ _, errorMsg t =>
      String.prefix "Failed to get chart values: " t
      || String.prefix "Failed to write values file: " t
  | _, _ => false
  end.

(** A running program: the model and the commands still executing. *)
Record sys : Set := mkSys {
  mdl : model;
  inflight : list Cmd
}.

Inductive event : Set :=
| Key (k : string)
| Deliver (i : nat) (msg : Msg).

Fixpoint remove_nth {A : Type} (i : nat) (l : list A) : list A :=
  match i, l with
  | _, [] => []
  | O, _ :: t => t
  | S j, x :: t => x :: remove_nth j t
  end.

Definition issue (c : option Cmd) (cs : list Cmd) : option (list Cmd) :=
  match c with
  | None => Some cs
  | Some Quit => None
  | Some c' => Some (cs ++ [c'])%list
  end.

(** One turn of the loop; [None] when the program has ended ([tea.Quit]
    or a panic) or when the event cannot occur (no such command in
    flight, or a message it cannot produce). *)
Definition step (s : sys) (e : event) : option sys :=
  match e with
  | Key k =>
      match Update (mdl s) (KeyMsg k) with
      | Some (m', c) =>
          match issue c (inflight s) with
          | Some cs => Some (mkSys m' cs)
          | None => None
          end
      | None => None
      end
  | Deliver i msg =>
      match nth_error (inflight s) i with
      | Some c =>
          if delivers c msg then
            match Update (mdl s) msg with
            | Some (m', c') =>
                match issue c' (remove_nth i (inflight s)) with
                | Some cs => Some (mkSys m' cs)
                | None => None
                end
            | None => None
            end
          else None
      | None => None
      end
  end.

Fixpoint run (s : sys) (es : list event) : option sys :=
  match es with
  | [] => Some s
  | e :: es' =>
      match step s e with
      | Some s' => run s' es'
      | None => None
      end
  end.

Definition start : sys := mkSys initialModel [Init initialModel].

Definition reachable (m : model) : Prop :=
  exists es s, run start es = Some s /\ mdl s = m.

(** ** Vocabulary of the specification *)

(** The list screens and the sequence each displays. *)
Definition listScreen (s : state) : bool :=
  match s with
  | stateRepoList | stateChartList | stateVersionList => true
  | _ => false
  end.

Definition displayedLen (m : model) : Z :=
  match m_state m with
  | stateRepoList => len (repos m)
  | stateChartList => len (charts m)
  | stateVersionList => len (versions m)
  | _ => 0
  end.

(** The keys of the cursor-movement, select and back events, and the
    digit keys. *)
Definition movementKey (k : string) : bool := key_in k ["up"; "k"; "down"; "j"].
Definition upKey (k : string) : bool := key_in k ["up"; "k"].
Definition downKey (k : string) : bool := key_in k ["down"; "j"].
Definition selectKey (k : string) : bool := key_in k ["enter"; " "].
Definition backKey (k : string) : bool := key_in k ["backspace"; "esc"].
Definition quitKey (k : string) : bool := key_in k ["ctrl+c"; "q"].
Definition digitKey (k : string) : bool :=
  key_in k ["0"; "1"; "2"; "3"; "4"; "5"; "6"; "7"; "8"; "9"].
Definition navigationKey (k : string) : bool :=
  movementKey k || selectKey k || digitKey k || backKey k.

(** The key of digit [n]. *)
Definition keyOfDigit (n : Z) : string :=
  String (ascii_of_nat (48 + Z.to_nat n)) EmptyString.

(** The selection [select(i)] of the specification on the current screen. *)
Definition selectAt (m : model) (i : Z) : option (model * option Cmd) :=
  match m_state m with
  | stateRepoList => selectRepo m i
  | stateChartList => selectChart m i
  | stateVersionList => selectVersion m i
  | _ => Some (m, None)
  end.

(** A name without "/". *)
Fixpoint no_slash (s : string) : bool :=
  match s with
  | EmptyString => true
  | String c r => negb (Ascii.eqb c "/") && no_slash r
  end.

(** The file name in the words of the specification:
    [{baseName}-{version}-default-values.yaml]. *)
Definition spec_filename (baseName version : string) : string :=
  baseName ++ "-" ++ version ++ "-default-values.yaml".

Definition contains (s part : string) : Prop :=
  exists pre post : string, s = pre ++ part ++ post.

(** ** Bounds and sample sessions *)

(** A slice keeps its elements in memory; the three element types are
    records of two or four string headers (32 and 64 bytes), so fewer
    than [2 ^ 59] of them fit in a 64-bit address space. *)
Definition slice_max : Z := 2 ^ 59.

(** Scenario B of the specification: 25 packages, cursor on item 23. *)
Definition charts25 : list HelmChart :=
  repeat (mkChart "argo/argo-cd" "5.46.8" "v2.8.4" "") 25.

Definition scenarioB : model :=
  mkModel stateChartList [mkRepo "argo" "https://argoproj.github.io/argo-helm"]
          charts25 [] 0 0 0 23 false "" "".

Definition argo : HelmRepo := mkRepo "argo" "https://argoproj.github.io/argo-helm".

Definition argo_cd : HelmChart := mkChart "argo/argo-cd" "5.46.8" "v2.8.4" "".


(** A session on the Failed screen. *)
Definition failedSession : model :=
  mkModel stateError [argo] [] [] 0 0 0 0 false
          "Failed to search charts: exit status 1" "".

(** A session on the Complete screen. *)
Definition completeSession : model :=
  mkModel stateComplete [argo] [argo_cd] [] 0 0 0 0 false ""
          "Successfully downloaded: argo-cd-5.46.8-default-values.yaml".

(** A session that has just selected a repository: the charts are loading. *)
Definition loadingCharts : list event :=
  [Deliver 0 repoUpdateMsg;
   Deliver 0 (reposLoadedMsg [argo]);
   Key "enter"].

(** Ten repositories on one page, cursor on the first. *)
Definition tenRepos : model :=
  mkModel stateRepoList
          (map (fun n => mkRepo n "https://charts.example.org")
               ["r1"; "r2"; "r3"; "r4"; "r5"; "r6"; "r7"; "r8"; "r9"; "r10"])
          [] [] 0 0 0 0 false "" "".

(** Scenario C of the specification: the versions of argo/argo-cd. *)
Definition scenarioC : model :=
  mkModel stateVersionList [argo] [argo_cd]
          [mkVersion "argo/argo-cd" "5.46.8" "v2.8.4" "";
           mkVersion "argo/argo-cd" "5.46.7" "v2.8.4" ""]
          0 0 0 0 false "" "".

(** ** The rest of [View] and the command closures *)

(** The number printed in front of a row: [fmt.Sprintf("%d.", i+1)]. *)
Definition rowNumber (i : Z) : Z := add i 1.

(** The pagination line under a list.  Its text is [fmt.Sprintf] of a
    fixed format; the value here is the branch taken and the integers
    printed: "Page %d of %d ... %d total", "%d ... available", or no line. *)
Inductive pageInfo : Set :=
| PageOf (currentPage totalPages total : Z)
| Available (total : Z)
| NoInfo.

Definition paginationInfo (m : model) (total : Z) : pageInfo :=
  if pageSize <? total then
    let totalPages := quot (sub (add total pageSize) 1) pageSize in
    let currentPage := add (getCurrentPage m) 1 in
    PageOf currentPage totalPages total
  else if 1 <? total then Available total
  else NoInfo.

(** [View], without the presentation: the title, the column headers, the
    styles and the padding of [fmt.Sprintf] are left out, and what is kept
    is the branch taken for the screen, every slice access (a panic is
    [None]), the rows of the page with the values printed in them, the
    pagination line and the help block. *)
Inductive line : Set :=
| RepoLine (selected : bool) (number : Z) (name url : string)
| ChartLine (selected : bool) (number : Z) (name version : string)
| VersionLine (selected : bool) (number : Z) (version : string)
              (appVersion : option string) (latest : bool).

Inductive body : Set :=
| Updating
| LoadingRepositories
| RepoTable (lines : list line) (info : pageInfo)
| LoadingCharts
| ChartTable (repository : string) (lines : list line) (info : pageInfo)
| LoadingVersions
| VersionTable (chart : string) (lines : list line) (info : pageInfo)
| Downloading
| CompleteText (text : string)
| ErrorText (text : string).

Inductive help : Set :=
| ListHelp
| CompleteHelp
| ErrorHelp
| NoHelp.

Definition repoLine (r : row HelmRepo) : line :=
  RepoLine (row_selected r) (rowNumber (row_index r))
           (repo_Name (row_item r)) (repo_URL (row_item r)).

Definition chartLine (repoName : string) (r : row HelmChart) : line :=
  ChartLine (row_selected r) (rowNumber (row_index r))
            (TrimPrefix (chart_Name (row_item r)) (repoName ++ "/"))
            (chart_Version (row_item r)).

Definition versionLine (r : row HelmVersion) : line :=
  VersionLine (row_selected r) (rowNumber (row_index r))
              (version_Version (row_item r))
              (if String.eqb (version_AppVersion (row_item r)) ""
               then None else Some (version_AppVersion (row_item r)))
              (row_index r =? 0).

Definition viewBody (m : model) : option body :=
  match m_state m with
  | stateRepoUpdate => Some Updating
  | stateRepoList =>
      if loading m then Some LoadingRepositories
      else
        match viewRows m (repos m) with
        | None => None
        | Some rows =>
            Some (RepoTable (map repoLine rows)
                            (paginationInfo m (len (repos m))))
        end
  | stateChartList =>
      if loading m then Some LoadingCharts
      else
        match index (repos m) (selectedRepo m) with
        | None => None
        | Some r =>
            match viewRows m (charts m) with
            | None => None
            | Some rows =>
                Some (ChartTable (repo_Name r)
                                 (map (chartLine (repo_Name r)) rows)
                                 (paginationInfo m (len (charts m))))
            end
        end
  | stateVersionList =>
      if loading m then Some LoadingVersions
      else
        match index (charts m) (selectedChart m) with
        | None => None
        | Some c =>
            match index (repos m) (selectedRepo m) with
            | None => None
            | Some r =>
                match viewRows m (versions m) with
                | None => None
                | Some rows =>
                    Some (VersionTable
                            (TrimPrefix (chart_Name c) (repo_Name r ++ "/"))
                            (map versionLine rows)
                            (paginationInfo m (len (versions m))))
                end
            end
        end
  | stateDownload => Some Downloading
  | stateComplete => Some (CompleteText (message m))
  | stateError => Some (ErrorText (error m))
  end.

Definition viewHelp (m : model) : help :=
  match m_state m with
  | stateRepoList | stateChartList | stateVersionList => ListHelp
  | stateComplete => CompleteHelp
  | stateError => ErrorHelp
  | _ => NoHelp
  end.

Definition View (m : model) : option (body * help) :=
  match viewBody m with
  | None => None
  | Some b => Some (b, viewHelp m)
  end.

(** What a line and a frame show. *)
Definition line_number (l : line) : Z :=
  match l with
  | RepoLine _ n _ _ => n
  | ChartLine _ n _ _ => n
  | VersionLine _ n _ _ _ => n
  end.

Definition line_selected (l : line) : bool :=
  match l with
  | RepoLine b _ _ _ => b
  | ChartLine b _ _ _ => b
  | VersionLine b _ _ _ _ => b
  end.

Definition line_latest (l : line) : bool :=
  match l with
  | VersionLine _ _ _ _ b => b
  | _ => false
  end.

Definition body_lines (b : body) : list line :=
  match b with
  | RepoTable ls _ => ls
  | ChartTable _ ls _ => ls
  | VersionTable _ ls _ => ls
  | _ => []
  end.

(** The closures of the commands, run against the effects they perform:
    [helm args] is the outcome of [exec.Command("helm", args...)] run to
    its end ([None] when the subprocess never exits, else [inl] the
    standard output or [inr] the text of the error), the three [unmarshal]
    functions are [json.Unmarshal] into a nil slice of the element type,
    and [writeFile] is [os.WriteFile]. *)
Section Commands.

Variable helm : list string -> option (string + string).
Variable unmarshalRepos : string -> list HelmRepo + string.
Variable unmarshalCharts : string -> list HelmChart + string.
Variable unmarshalVersions : string -> list HelmVersion + string.
Variable writeFile : string -> string -> writeOutcome.

Definition run_updateRepos : cmdResult :=
  match helm ["repo"; "update"] with
  | None => Blocked
  | Some (inr err) => Returned (errorMsg ("Failed to update repos: " ++ err)) []
  | Some (inl _) => Returned repoUpdateMsg []
  end.

Definition run_loadRepos : cmdResult :=
  match helm ["repo"; "list"; "-o"; "json"] with
  | None => Blocked
  | Some (inr err) => Returned (errorMsg ("Failed to list repos: " ++ err)) []
  | Some (inl output) =>
      if 0 <? Z.of_nat (String.length output) then
        match unmarshalRepos output with
        | inr err => Returned (errorMsg ("Failed to parse repos: " ++ err)) []
        | inl rs => Returned (reposLoadedMsg rs) []
        end
      else Returned (reposLoadedMsg []) []
  end.

Definition run_loadCharts (repoName : string) : cmdResult :=
  match helm ["search"; "repo"; repoName ++ "/"; "-o"; "json"] with
  | None => Blocked
  | Some (inr err) => Returned (errorMsg ("Failed to search charts: " ++ err)) []
  | Some (inl output) =>
      if 0 <? Z.of_nat (String.length output) then
        match unmarshalCharts output with
        | inr err => Returned (errorMsg ("Failed to parse charts: " ++ err)) []
        | inl cs => Returned (chartsLoadedMsg cs) []
        end
      else Returned (chartsLoadedMsg []) []
  end.

Definition run_loadVersions (chartName : string) : cmdResult :=
  match helm ["search"; "repo"; chartName; "--versions"; "-o"; "json"] with
  | None => Blocked
  | Some (inr err) => Returned (errorMsg ("Failed to search versions: " ++ err)) []
  | Some (inl output) =>
      if 0 <? Z.of_nat (String.length output) then
        match unmarshalVersions output with
        | inr err => Returned (errorMsg ("Failed to parse versions: " ++ err)) []
        | inl vs => Returned (versionsLoadedMsg vs) []
        end
      else Returned (versionsLoadedMsg []) []
  end.

(** A command run to its end. *)
Definition exec (c : Cmd) : cmdResult :=
  match c with
  | Quit => Ended
  | updateRepos => run_updateRepos
  | loadRepos => run_loadRepos
  | loadCharts repoName => run_loadCharts repoName
  | loadVersions chartName => run_loadVersions chartName
  | downloadValues chartName version =>
      run_downloadValues
        (fun c v => helm ["show"; "values"; c; "--version"; v])
        writeFile chartName version
  end.

End Commands.

(** The arguments of the one [helm] call a command makes. *)
Definition helmArgs (c : Cmd) : list string :=
  match c with
  | Quit => []
  | updateRepos => ["repo"; "update"]
  | loadRepos => ["repo"; "list"; "-o"; "json"]
  | loadCharts repoName => ["search"; "repo"; repoName ++ "/"; "-o"; "json"]
  | loadVersions chartName => ["search"; "repo"; chartName; "--versions"; "-o"; "json"]
  | downloadValues chartName version =>
      ["show"; "values"; chartName; "--version"; version]
  end.

(** The commands that start a fetch after a selection. *)
Definition isFetch (c : option Cmd) : bool :=
  match c with
  | Some (loadCharts _) => true
  | Some (loadVersions _) => true
  | Some (downloadValues _ _) => true
  | _ => false
  end.


(** [n] presses of the key [k] in a row, the commands returned set aside. *)
Fixpoint presses (k : string) (n : nat) (m : model) : option model :=
  match n with
  | O => Some m
  | S n' =>
      match Update m (KeyMsg k) with
      | Some (m', _) => presses k n' m'
      | None => None
      end
  end.

(** The digit keys that act as shortcuts. *)
Definition shortcutKey (k : string) : bool :=
  key_in k ["1"; "2"; "3"; "4"; "5"; "6"; "7"; "8"; "9"].

(** ** Sessions in which no key is pressed while a fetch runs *)

(** A cursor fit for a sequence: inside it, or 0 when it is empty. *)
Definition valid_cursor {A : Type} (l : list A) (c : Z) : Prop :=
  (l = [] /\ c = 0) \/ 0 <= c < len l.

Definition sizes_ok (m : model) : Prop :=
  len (repos m) <= slice_max /\ len (charts m) <= slice_max /\
  len (versions m) <= slice_max.

Definition idle (s : sys) : bool :=
  match inflight s with
  | [] => true
  | _ => false
  end.

(** What holds of a running program as long as keys are only pressed
    while nothing is in flight. *)
Definition Inv (s : sys) : Prop :=
  let m := mdl s in
  sizes_ok m /\
  loading m = negb (idle s) /\
  match m_state m with
  | stateRepoUpdate =>
      (inflight s = [updateRepos] \/ inflight s = [loadRepos]) /\
      charts m = [] /\ versions m = []
  | stateRepoList =>
      inflight s = [] /\ valid_cursor (repos m) (cursor m) /\
      charts m = [] /\ versions m = []
  | stateChartList =>
      versions m = [] /\
      exists r, index (repos m) (selectedRepo m) = Some r /\
      ((inflight s = [loadCharts (repo_Name r)] /\ charts m = [] /\ cursor m = 0) \/
       (inflight s = [] /\ valid_cursor (charts m) (cursor m)))
  | stateVersionList =>
      (exists r, index (repos m) (selectedRepo m) = Some r) /\
      exists c, index (charts m) (selectedChart m) = Some c /\
      ((inflight s = [loadVersions (chart_Name c)] /\ versions m = [] /\ cursor m = 0) \/
       (inflight s = [] /\ valid_cursor (versions m) (cursor m)))
  | stateDownload =>
      exists v, index (versions m) (selectedVersion m) = Some v /\
      inflight s = [downloadValues (version_Name v) (version_Version v)]
  | stateError => inflight s = []
  | stateComplete => inflight s = []
  end.

(** A message whose slice is one a Go program can hold. *)
Definition wf_msg (msg : Msg) : bool :=
  match msg with
  | reposLoadedMsg rs => len rs <=? slice_max
  | chartsLoadedMsg cs => len cs <=? slice_max
  | versionsLoadedMsg vs => len vs <=? slice_max
  | _ => true
  end.

(** The events of such a session: a key only when nothing is in flight. *)
Definition calm (s : sys) (e : event) : bool :=
  match e with
  | Key _ => idle s
  | Deliver _ msg => wf_msg msg
  end.

Fixpoint calm_run (s : sys) (es : list event) : option sys :=
  match es with
  | [] => Some s
  | e :: es' =>
      if calm s e then
        match step s e with
        | Some s' => calm_run s' es'
        | None => None
        end
      else None
  end.

(** ** Any session *)

(** An event whose message, if any, holds a slice a Go program can hold. *)
Definition wf_event (e : event) : bool :=
  match e with
  | Key _ => true
  | Deliver _ msg => wf_msg msg
  end.

(** The cursor and the recorded selections are indices a slice can have. *)
Definition bounds_ok (m : model) : Prop :=
  sizes_ok m /\
  0 <= cursor m <= slice_max /\
  0 <= selectedRepo m <= slice_max /\
  0 <= selectedChart m <= slice_max /\
  0 <= selectedVersion m <= slice_max.

(** Two repositories, and a session in which the user goes back while the
    charts of the first load, selects the second, picks the fifth chart
    of the first result, and goes back after the second result (two
    charts) has replaced the list. *)
Definition stable : HelmRepo := mkRepo "stable" "https://charts.helm.sh/stable".

Definition chartsOf (repo : string) (names : list string) : list HelmChart :=
  map (fun n => mkChart (repo ++ "/" ++ n) "1.0.0" "1.0" "") names.

Definition raceToStaleSelection : list event :=
  [Deliver 0 repoUpdateMsg;
   Deliver 0 (reposLoadedMsg [argo; stable]);
   Key "enter";
   Key "esc";
   Key "j";
   Key "enter";
   Deliver 0 (chartsLoadedMsg
                (chartsOf "argo" ["argo-cd"; "argo-events"; "argo-rollouts";
                                  "argo-workflows"; "argocd-apps"]));
   Key "j"; Key "j"; Key "j"; Key "j";
   Key "enter";
   Deliver 0 (chartsLoadedMsg (chartsOf "stable" ["nginx"; "redis"]))].

Definition raceToStaleCursor : list event :=
  (raceToStaleSelection ++ [Key "esc"])%list.

(** A session that follows the screens in order, each key pressed after
    the fetch before it has ended. *)
Definition calmSession : list event :=
  [Deliver 0 repoUpdateMsg;
   Deliver 0 (reposLoadedMsg [argo; stable]);
   Key "j";
   Key "enter";
   Deliver 0 (chartsLoadedMsg (chartsOf "stable" ["nginx"; "redis"]));
   Key "2"].

(** * Properties *)

Ltac simpl_model :=
  cbn [m_state repos charts versions selectedRepo selectedChart selectedVersion
       cursor loading error message
       set_state set_repos set_charts set_versions set_selectedRepo
       set_selectedChart set_selectedVersion set_cursor set_loading
       set_error set_message].

(** ** Arithmetic of [int] within range *)

Lemma wrap_id (z : Z) : in_range z -> wrap z = z.
Proof.
  unfold in_range, wrap, min_int, max_int. intros H.
  rewrite Z.mod_small by lia. lia.
Qed.

Lemma len_nonneg {A : Type} (l : list A) : 0 <= len l.
Proof. unfold len. lia. Qed.

Lemma len_nil {A : Type} : len (@nil A) = 0.
Proof. reflexivity. Qed.

Lemma add_exact (a b : Z) : in_range (a + b) -> add a b = a + b.
Proof. apply wrap_id. Qed.

Lemma sub_exact (a b : Z) : in_range (a - b) -> sub a b = a - b.
Proof. apply wrap_id. Qed.

Lemma index_Some {A : Type} (l : list A) (i : Z) :
  0 <= i < len l -> exists x, index l i = Some x /\ nth_error l (Z.to_nat i) = Some x.
Proof.
  intros H. unfold index.
  destruct (Z.ltb_spec i 0); [lia|].
  destruct (Z.leb_spec (len l) i); [lia|]. cbn [orb].
  destruct (nth_error l (Z.to_nat i)) eqn:E; [eauto|].
  apply nth_error_None in E. unfold len in H. lia.
Qed.

Lemma index_None {A : Type} (l : list A) (i : Z) :
  i < 0 \/ len l <= i -> index l i = None.
Proof.
  intros H. unfold index.
  destruct (Z.ltb_spec i 0); [reflexivity|].
  destruct (Z.leb_spec (len l) i); [reflexivity|lia].
Qed.

(** ** Pagination *)

Lemma getCurrentPage_exact (m : model) :
  0 <= cursor m <= max_int -> getCurrentPage m = cursor m / 10.
Proof.
  intros H. unfold getCurrentPage, quot, pageSize.
  rewrite Z.quot_div_nonneg by lia.
  apply wrap_id. unfold in_range, min_int, max_int in *.
  pose proof (Z.div_pos (cursor m) 10).
  pose proof (Z.div_le_upper_bound (cursor m) 10 (cursor m)).
  lia.
Qed.

Lemma getPageStart_exact (m : model) :
  0 <= cursor m <= max_int -> getPageStart m = cursor m / 10 * 10.
Proof.
  intros H. unfold getPageStart, mul, pageSize.
  rewrite getCurrentPage_exact by assumption.
  apply wrap_id. unfold in_range, min_int, max_int in *.
  pose proof (Z.mul_div_le (cursor m) 10).
  pose proof (Z.div_pos (cursor m) 10).
  lia.
Qed.

Lemma getPageStart_bounds (m : model) :
  0 <= cursor m <= max_int ->
  0 <= getPageStart m <= cursor m /\ cursor m < getPageStart m + 10.
Proof.
  intros H. rewrite getPageStart_exact by assumption.
  pose proof (Z.mul_div_le (cursor m) 10).
  pose proof (Z.div_pos (cursor m) 10).
  pose proof (Z.mul_succ_div_gt (cursor m) 10).
  lia.
Qed.

Lemma getPageEnd_exact (m : model) (totalItems : Z) :
  0 <= cursor m <= slice_max ->
  getPageEnd m totalItems = Z.min (getPageStart m + 10) totalItems.
Proof.
  intros H. unfold slice_max in H.
  assert (Hc : 0 <= cursor m <= max_int) by (unfold max_int; lia).
  pose proof (getPageStart_bounds m Hc) as Hb.
  unfold getPageEnd, pageSize.
  rewrite add_exact by (unfold in_range, min_int, max_int; lia).
  destruct (Z.ltb_spec totalItems (getPageStart m + 10)); lia.
Qed.

(** The loop of [View] visits every index of [[i, end_)] once. *)
Lemma rowLoop_total {A : Type} (m : model) (l : list A) (end_ : Z) :
  end_ <= len l -> end_ <= slice_max ->
  forall (n : nat) (i : Z) (fuel : nat),
    0 <= i -> Z.of_nat n = Z.max 0 (end_ - i) -> (n < fuel)%nat ->
    exists rows,
      rowLoop fuel m l i end_ = Some rows /\
      List.length rows = n /\
      Forall (fun r => i <= row_index r < end_ /\
                       index l (row_index r) = Some (row_item r) /\
                       row_selected r = (row_index r =? cursor m)) rows.
Proof.
  intros Hlen Hmax. induction n as [|n IH]; intros i fuel Hi Hn Hfuel.
  - destruct fuel as [|fuel]; [lia|]. cbn [rowLoop].
    destruct (Z.ltb_spec i end_); [lia|].
    exists []. repeat split. constructor.
  - destruct fuel as [|fuel]; [lia|]. cbn [rowLoop].
    destruct (Z.ltb_spec i end_); [|lia].
    destruct (index_Some l i) as [x [Hx _]]; [lia|]. rewrite Hx.
    assert (Hadd : add i 1 = i + 1).
    { apply add_exact. unfold in_range, min_int, max_int, slice_max in *. lia. }
    rewrite Hadd.
    destruct (IH (i + 1) fuel) as [rs [Hrs [Hl Hall]]]; [lia|lia|lia|].
    rewrite Hrs. eexists. split; [reflexivity|]. split.
    + cbn [List.length]. congruence.
    + constructor.
      * cbn. repeat split; try lia. exact Hx.
      * eapply Forall_impl; [|exact Hall]. cbn. intros r Hr. intuition lia.
Qed.

(** C2: for a non-empty sequence [l] (of a length a slice can have) and a
    cursor [0 <= c < len l], the page bounds used for rendering are [pageStart = (c / 10) * 10] and
    [pageEnd = min (pageStart + 10) (len l)], the row loop of [View]
    produces exactly [pageEnd - pageStart] rows (each an item of the page,
    marked when its index is the cursor), and the bounds are a function
    of the cursor alone: two models with the same cursor have the same
    page. *)
Theorem C2_page_bounds {A : Type} (m : model) (l : list A) :
  l <> [] -> len l <= slice_max -> 0 <= cursor m < len l ->
  getPageStart m = cursor m / 10 * 10 /\
  getPageEnd m (len l) = Z.min (getPageStart m + 10) (len l) /\
  (exists rows,
      viewRows m l = Some rows /\
      Z.of_nat (List.length rows) = getPageEnd m (len l) - getPageStart m /\
      Forall (fun r => getPageStart m <= row_index r < getPageEnd m (len l) /\
                       index l (row_index r) = Some (row_item r) /\
                       row_selected r = (row_index r =? cursor m)) rows) /\
  (forall m' : model,
      cursor m' = cursor m ->
      getPageStart m' = getPageStart m /\
      getPageEnd m' (len l) = getPageEnd m (len l)).
Proof.
  intros _ Hmax Hc.
  assert (Hc1 : 0 <= cursor m <= max_int) by (unfold slice_max, max_int in *; lia).
  assert (Hc2 : 0 <= cursor m <= slice_max) by lia.
  pose proof (getPageStart_bounds m Hc1) as Hb.
  pose proof (getPageEnd_exact m (len l) Hc2) as He.
  split; [apply getPageStart_exact; assumption|].
  split; [assumption|]. split.
  - unfold viewRows.
    destruct (rowLoop_total m l (getPageEnd m (len l)) ltac:(lia) ltac:(lia)
                (Z.to_nat (getPageEnd m (len l) - getPageStart m))
                (getPageStart m)
                (S (Z.to_nat (getPageEnd m (len l) - getPageStart m))))
      as [rows [Hr [Hl Hall]]]; [lia|lia|lia|].
    exists rows. split; [exact Hr|]. split; [lia|exact Hall].
  - intros m' Hm'. unfold getPageEnd, getPageStart, getCurrentPage.
    rewrite Hm'. split; reflexivity.
Qed.

Lemma C2_page_bounds_witness :
  getPageStart scenarioB = 20 /\ getPageEnd scenarioB (len charts25) = 25 /\
  exists rows, viewRows scenarioB charts25 = Some rows /\ List.length rows = 5%nat.
Proof.
  destruct (C2_page_bounds scenarioB charts25) as [Hs [He [[rows [Hr [Hl _]]] _]]].
  - discriminate.
  - vm_compute. discriminate.
  - vm_compute. split; [discriminate|reflexivity].
  - split; [exact Hs|]. split.
    + rewrite He, Hs. reflexivity.
    + exists rows. split; [exact Hr|]. rewrite He, Hs in Hl.
      apply Nat2Z.inj. rewrite Hl. reflexivity.
Defined.

(** ** Dispatch of key presses *)

Lemma key_in_cases (k : string) (labels : list string) :
  key_in k labels = true -> In k labels.
Proof.
  unfold key_in. rewrite existsb_exists. intros [x [Hin Hx]].
  apply String.eqb_eq in Hx. subst. exact Hin.
Qed.

Lemma Update_quitKey (m : model) (k : string) :
  quitKey k = true -> Update m (KeyMsg k) = Some (m, Some Quit).
Proof. intros H. cbn [Update]. unfold quitKey in H. rewrite H. reflexivity. Qed.

Lemma Update_upKey (m : model) (k : string) :
  upKey k = true -> Update m (KeyMsg k) = keyUp m.
Proof.
  intros H. apply key_in_cases in H. cbn [In] in H.
  destruct H as [H|[H|[]]]; subst; reflexivity.
Qed.

Lemma Update_downKey (m : model) (k : string) :
  downKey k = true -> Update m (KeyMsg k) = keyDown m.
Proof.
  intros H. apply key_in_cases in H. cbn [In] in H.
  destruct H as [H|[H|[]]]; subst; reflexivity.
Qed.

Lemma Update_selectKey (m : model) (k : string) :
  selectKey k = true -> Update m (KeyMsg k) = keyEnter m.
Proof.
  intros H. apply key_in_cases in H. cbn [In] in H.
  destruct H as [H|[H|[]]]; subst; reflexivity.
Qed.

Lemma Update_backKey (m : model) (k : string) :
  backKey k = true -> Update m (KeyMsg k) = keyBack m.
Proof.
  intros H. apply key_in_cases in H. cbn [In] in H.
  destruct H as [H|[H|[]]]; subst; reflexivity.
Qed.

Lemma Update_otherKey (m : model) (k : string) :
  quitKey k = false -> upKey k = false -> downKey k = false ->
  selectKey k = false -> backKey k = false ->
  Update m (KeyMsg k) = keyDefault m k.
Proof.
  unfold quitKey, upKey, downKey, selectKey, backKey. intros H1 H2 H3 H4 H5.
  cbn [Update]. rewrite H1, H2, H3, H4, H5. reflexivity.
Qed.

Lemma movementKey_split (k : string) :
  movementKey k = true -> upKey k = true \/ downKey k = true.
Proof.
  intros H. apply key_in_cases in H. cbn [In] in H.
  destruct H as [H|[H|[H|[H|[]]]]]; subst; auto.
Qed.

Lemma upKey_not_down (k : string) : upKey k = true -> downKey k = false.
Proof.
  intros H. apply key_in_cases in H. cbn [In] in H.
  destruct H as [H|[H|[]]]; subst; reflexivity.
Qed.

Lemma downKey_not_up (k : string) : downKey k = true -> upKey k = false.
Proof.
  intros H. apply key_in_cases in H. cbn [In] in H.
  destruct H as [H|[H|[]]]; subst; reflexivity.
Qed.

(** ** Cursor movement *)

Lemma displayedLen_set_cursor (c : Z) (m : model) :
  displayedLen (set_cursor c m) = displayedLen m.
Proof. reflexivity. Qed.

Lemma keyUp_moves (m : model) :
  keyUp m =
  Some (if listScreen (m_state m) && (0 <? cursor m)
        then set_cursor (sub (cursor m) 1) m else m, None).
Proof. unfold keyUp. destruct (m_state m); reflexivity. Qed.

Lemma keyDown_moves (m : model) :
  keyDown m =
  Some (if listScreen (m_state m) && (cursor m <? sub (displayedLen m) 1)
        then set_cursor (add (cursor m) 1) m else m, None).
Proof. unfold keyDown, displayedLen. destruct (m_state m); reflexivity. Qed.

(** C5: on every screen, with [L] the length of the displayed sequence (a
    length a slice can have),
    a cursor-movement key (up/k, down/j) keeps a cursor of [[0, L-1]] in
    [[0, L-1]] when [L > 0]: up yields [max 0 (c - 1)] and down yields
    [min (L - 1) (c + 1)], so neither wraps around; when [L = 0] a cursor
    at 0 stays at 0. *)
Theorem C5_cursor_clamped (m : model) (k : string) :
  movementKey k = true -> displayedLen m <= slice_max ->
  (0 < displayedLen m -> 0 <= cursor m <= displayedLen m - 1 ->
   exists m',
     Update m (KeyMsg k) = Some (m', None) /\
     displayedLen m' = displayedLen m /\
     0 <= cursor m' <= displayedLen m - 1 /\
     (upKey k = true -> cursor m' = Z.max 0 (cursor m - 1)) /\
     (downKey k = true -> cursor m' = Z.min (displayedLen m - 1) (cursor m + 1))) /\
  (displayedLen m = 0 -> cursor m = 0 ->
   exists m', Update m (KeyMsg k) = Some (m', None) /\ cursor m' = 0).
Proof.
  intros Hk Hmax.
  assert (Hsub : 0 <= displayedLen m ->
                 sub (displayedLen m) 1 = displayedLen m - 1).
  { intros H. apply sub_exact.
    unfold in_range, min_int, max_int, slice_max in *. lia. }
  assert (Hlen : 0 <= displayedLen m).
  { unfold displayedLen. destruct (m_state m); try lia; apply len_nonneg. }
  specialize (Hsub Hlen).
  apply movementKey_split in Hk. destruct Hk as [Hk|Hk].
  - pose proof (upKey_not_down k Hk) as Hd.
    rewrite (Update_upKey m k Hk), keyUp_moves. split.
    + intros HL Hc. eexists. split; [reflexivity|].
      assert (Hls : listScreen (m_state m) = true).
      { unfold displayedLen in HL. destruct (m_state m); try reflexivity; lia. }
      rewrite Hls. cbn [andb].
      destruct (Z.ltb_spec 0 (cursor m)).
      * rewrite displayedLen_set_cursor. cbn [cursor set_cursor].
        rewrite sub_exact
          by (unfold in_range, min_int, max_int, slice_max in *; lia).
        split; [reflexivity|]. split; [lia|]. split; [intros _; lia|].
        intros Hx; rewrite Hd in Hx; discriminate.
      * split; [reflexivity|]. split; [lia|]. split; [intros _; lia|].
        intros Hx; rewrite Hd in Hx; discriminate.
    + intros HL Hc. eexists. split; [reflexivity|].
      rewrite Hc. cbn [Z.ltb Z.compare]. rewrite andb_false_r. exact Hc.
  - pose proof (downKey_not_up k Hk) as Hu.
    rewrite (Update_downKey m k Hk), keyDown_moves, Hsub. split.
    + intros HL Hc. eexists. split; [reflexivity|].
      assert (Hls : listScreen (m_state m) = true).
      { unfold displayedLen in HL. destruct (m_state m); try reflexivity; lia. }
      rewrite Hls. cbn [andb].
      destruct (Z.ltb_spec (cursor m) (displayedLen m - 1)).
      * rewrite displayedLen_set_cursor. cbn [cursor set_cursor].
        rewrite add_exact
          by (unfold in_range, min_int, max_int, slice_max in *; lia).
        split; [reflexivity|]. split; [lia|]. split; [|intros _; lia].
        intros Hx; rewrite Hu in Hx; discriminate.
      * split; [reflexivity|]. split; [lia|]. split; [|intros _; lia].
        intros Hx; rewrite Hu in Hx; discriminate.
    + intros HL Hc. eexists. split; [reflexivity|].
      rewrite HL, Hc. cbn. rewrite andb_false_r. exact Hc.
Qed.

Lemma C5_cursor_clamped_witness :
  exists m', Update scenarioB (KeyMsg "j") = Some (m', None) /\ cursor m' = 24.
Proof.
  destruct (C5_cursor_clamped scenarioB "j") as [H _].
  - reflexivity.
  - vm_compute. discriminate.
  - destruct H as [m' [Hu [_ [_ [_ Hd]]]]].
    + vm_compute. reflexivity.
    + vm_compute. split; discriminate.
    + exists m'. split; [exact Hu|]. rewrite Hd; reflexivity.
Defined.

(** C10: a cursor-movement key (up/k, down/j) changes at most the cursor:
    the screen, the three sequences, the three selection indices, the
    loading flag and the error and message strings of the model returned
    are those of the model received, and no command is issued. *)
Theorem C10_movement_frame (m : model) (k : string) :
  movementKey k = true ->
  exists m',
    Update m (KeyMsg k) = Some (m', None) /\
    m_state m' = m_state m /\
    repos m' = repos m /\ charts m' = charts m /\ versions m' = versions m /\
    selectedRepo m' = selectedRepo m /\ selectedChart m' = selectedChart m /\
    selectedVersion m' = selectedVersion m /\
    loading m' = loading m /\ error m' = error m /\ message m' = message m.
Proof.
  intros Hk. apply movementKey_split in Hk. destruct Hk as [Hk|Hk].
  - rewrite (Update_upKey m k Hk), keyUp_moves.
    eexists. split; [reflexivity|].
    destruct (listScreen (m_state m) && (0 <? cursor m));
      repeat split; reflexivity.
  - rewrite (Update_downKey m k Hk), keyDown_moves.
    eexists. split; [reflexivity|].
    destruct (listScreen (m_state m) && (cursor m <? sub (displayedLen m) 1));
      repeat split; reflexivity.
Qed.

Lemma C10_movement_frame_witness :
  exists m',
    Update scenarioB (KeyMsg "up") = Some (m', None) /\
    m_state m' = stateChartList /\ charts m' = charts25 /\ loading m' = false.
Proof.
  destruct (C10_movement_frame scenarioB "up" eq_refl)
    as [m' [Hu [Hs [_ [Hc [_ [_ [_ [_ [Hl _]]]]]]]]]].
  exists m'. split; [exact Hu|]. split; [exact Hs|]. split; [exact Hc|exact Hl].
Defined.

(** ** Back navigation *)

(** C4: in the PackageList state ([stateChartList]) the back keys
    (backspace, esc) lead to [stateRepoList] with the cursor at the
    recorded [selectedRepo] and the charts discarded; in the VersionList
    state they lead to [stateChartList] with the cursor at the recorded
    [selectedChart] and the versions discarded.  Nothing else changes and
    no command is issued. *)
Theorem C4_back_navigation (m : model) (k : string) :
  backKey k = true ->
  (m_state m = stateChartList ->
   exists m',
     Update m (KeyMsg k) = Some (m', None) /\
     m_state m' = stateRepoList /\ cursor m' = selectedRepo m /\ charts m' = [] /\
     repos m' = repos m /\ versions m' = versions m /\
     selectedRepo m' = selectedRepo m /\ selectedChart m' = selectedChart m /\
     selectedVersion m' = selectedVersion m /\
     loading m' = loading m /\ error m' = error m /\ message m' = message m) /\
  (m_state m = stateVersionList ->
   exists m',
     Update m (KeyMsg k) = Some (m', None) /\
     m_state m' = stateChartList /\ cursor m' = selectedChart m /\ versions m' = [] /\
     repos m' = repos m /\ charts m' = charts m /\
     selectedRepo m' = selectedRepo m /\ selectedChart m' = selectedChart m /\
     selectedVersion m' = selectedVersion m /\
     loading m' = loading m /\ error m' = error m /\ message m' = message m).
Proof.
  intros Hk. rewrite (Update_backKey m k Hk). unfold keyBack.
  split; intros Hs; rewrite Hs; eexists; (split; [reflexivity|]);
    repeat split; reflexivity.
Qed.

Lemma C4_back_navigation_witness :
  exists m',
    Update (set_selectedRepo 2 scenarioB) (KeyMsg "esc") = Some (m', None) /\
    m_state m' = stateRepoList /\ cursor m' = 2 /\ charts m' = [].
Proof.
  destruct (proj1 (C4_back_navigation (set_selectedRepo 2 scenarioB) "esc" eq_refl) eq_refl)
    as [m' [Hu [Hs [Hc [Hch _]]]]].
  exists m'. split; [exact Hu|]. split; [exact Hs|]. split; [exact Hc|exact Hch].
Defined.

(** ** Keys outside the list screens *)

Lemma keyDefault_off_list (m : model) (k : string) :
  listScreen (m_state m) = false -> m_state m <> stateComplete ->
  keyDefault m k = Some (m, None).
Proof.
  intros Hl Hc. unfold keyDefault, numberShortcut.
  destruct (m_state m); try discriminate; try congruence; cbn [state_eqb];
    destruct (String.length k =? 1)%nat; try reflexivity;
    destruct (Atoi k) as [num|]; try reflexivity;
    destruct ((1 <=? num) && (num <=? pageSize)); reflexivity.
Qed.

(** On RefreshingIndex, Fetching and Failed only the quit keys do anything. *)
Lemma keys_off_list (m : model) (k : string) :
  listScreen (m_state m) = false -> m_state m <> stateComplete ->
  Update m (KeyMsg k) = Some (m, if quitKey k then Some Quit else None).
Proof.
  intros Hl Hc.
  destruct (quitKey k) eqn:Hq; [apply Update_quitKey; exact Hq|].
  destruct (upKey k) eqn:Hu.
  { rewrite (Update_upKey m k Hu), keyUp_moves, Hl. reflexivity. }
  destruct (downKey k) eqn:Hd.
  { rewrite (Update_downKey m k Hd), keyDown_moves, Hl. reflexivity. }
  destruct (selectKey k) eqn:Hs.
  { rewrite (Update_selectKey m k Hs). unfold keyEnter.
    destruct (m_state m); try discriminate; try congruence; reflexivity. }
  destruct (backKey k) eqn:Hb.
  { rewrite (Update_backKey m k Hb). unfold keyBack.
    destruct (m_state m); try discriminate; try congruence; reflexivity. }
  rewrite (Update_otherKey m k Hq Hu Hd Hs Hb).
  apply keyDefault_off_list; assumption.
Qed.

Lemma keys_on_failed (m : model) (k : string) :
  m_state m = stateError ->
  Update m (KeyMsg k) = Some (m, if quitKey k then Some Quit else None).
Proof.
  intros Hs. apply keys_off_list; rewrite Hs; [reflexivity|discriminate].
Qed.

Lemma movementKey_false (k : string) :
  movementKey k = false -> upKey k = false /\ downKey k = false.
Proof.
  unfold movementKey, upKey, downKey, key_in. cbn [existsb].
  intros H. repeat rewrite orb_false_r in *.
  repeat (apply orb_false_elim in H; destruct H as [? H]).
  rewrite orb_false_iff. repeat split; try assumption.
  rewrite orb_false_iff. split; assumption.
Qed.

Lemma keys_on_complete (m : model) (k : string) :
  m_state m = stateComplete -> movementKey k = false ->
  Update m (KeyMsg k) = Some (m, Some Quit).
Proof.
  intros Hs Hm. apply movementKey_false in Hm. destruct Hm as [Hu Hd].
  destruct (quitKey k) eqn:Hq; [apply Update_quitKey; exact Hq|].
  destruct (selectKey k) eqn:Hsel.
  { rewrite (Update_selectKey m k Hsel). unfold keyEnter. rewrite Hs. reflexivity. }
  destruct (backKey k) eqn:Hb.
  { rewrite (Update_backKey m k Hb). unfold keyBack. rewrite Hs. reflexivity. }
  rewrite (Update_otherKey m k Hq Hu Hd Hsel Hb).
  unfold keyDefault. rewrite Hs. reflexivity.
Qed.

(** The cursor-movement keys are the keys [Update] does not quit on in
    the Complete state: their cases have no [stateComplete] branch, unlike
    the "enter" and "backspace" cases and the default case. *)
Lemma movement_keys_on_complete (m : model) (k : string) :
  m_state m = stateComplete -> movementKey k = true ->
  Update m (KeyMsg k) = Some (m, None).
Proof.
  intros Hs Hm. apply movementKey_split in Hm. destruct Hm as [H|H].
  - rewrite (Update_upKey m k H), keyUp_moves, Hs. reflexivity.
  - rewrite (Update_downKey m k H), keyDown_moves, Hs. reflexivity.
Qed.

(** ** Failure *)






(** ** Terminal screens *)

(** C8 (as the code has it): on the Complete screen every key press other
    than a cursor-movement key returns the quit command; on the Failed
    screen only the quit keys (q, ctrl+c) return it, and every other key
    leaves the Session as it is and returns no command. *)
Theorem C8_terminal_screen_keys (m : model) (k : string) :
  (m_state m = stateComplete -> movementKey k = false ->
   Update m (KeyMsg k) = Some (m, Some Quit)) /\
  (m_state m = stateError ->
   Update m (KeyMsg k) = Some (m, if quitKey k then Some Quit else None)).
Proof.
  split.
  - apply keys_on_complete.
  - apply keys_on_failed.
Qed.

Lemma C8_terminal_screen_keys_witness :
  Update completeSession (KeyMsg "x") = Some (completeSession, Some Quit) /\
  Update failedSession (KeyMsg "q") = Some (failedSession, Some Quit).
Proof.
  split.
  - exact (proj1 (C8_terminal_screen_keys completeSession "x") eq_refl eq_refl).
  - exact (proj2 (C8_terminal_screen_keys failedSession "q") eq_refl).
Defined.

(** C8 as stated fails on the Failed screen: "enter" there does not quit. *)
Lemma C8_enter_on_failed_does_not_quit :
  m_state failedSession = stateError /\
  Update failedSession (KeyMsg "enter") = Some (failedSession, None).
Proof. split; reflexivity. Qed.

(** ** Index refresh *)

(** C7 (as the code has it): the index-refreshed message received in the
    RefreshingIndex state sets the loading flag and issues the
    list-repositories fetch, and the screen stays RefreshingIndex; the
    Session moves to the RepositoryList screen when the repositories-loaded
    message arrives, which stores the list, clears the loading flag and
    puts the cursor at 0. *)
Theorem C7_index_refreshed (m : model) :
  m_state m = stateRepoUpdate ->
  exists m1,
    Update m repoUpdateMsg = Some (m1, Some loadRepos) /\
    m_state m1 = stateRepoUpdate /\ loading m1 = true /\
    m1 = set_loading true m /\
    forall rs : list HelmRepo,
    exists m2,
      Update m1 (reposLoadedMsg rs) = Some (m2, None) /\
      m_state m2 = stateRepoList /\ loading m2 = false /\
      repos m2 = rs /\ cursor m2 = 0.
Proof.
  intros Hs. eexists. split; [reflexivity|].
  split; [exact Hs|]. split; [reflexivity|]. split; [reflexivity|].
  intros rs. eexists. split; [reflexivity|]. repeat split; reflexivity.
Qed.

Lemma C7_index_refreshed_witness :
  exists m1,
    Update initialModel repoUpdateMsg = Some (m1, Some loadRepos) /\
    m_state m1 = stateRepoUpdate /\ loading m1 = true.
Proof.
  destruct (C7_index_refreshed initialModel eq_refl) as [m1 [Hu [Hs [Hl _]]]].
  exists m1. split; [exact Hu|]. split; [exact Hs|exact Hl].
Defined.

(** C7 as stated fails: after the index-refreshed message the initial
    Session is not on the RepositoryList screen. *)
Lemma C7_screen_stays_refreshing :
  ~ (exists m',
        Update initialModel repoUpdateMsg = Some (m', Some loadRepos) /\
        m_state m' = stateRepoList /\ loading m' = true).
Proof.
  intros [m' [Hu [Hs _]]]. cbn in Hu. injection Hu as <-. discriminate Hs.
Qed.

(** ** Keys while a fetch is in flight *)

Lemma navigationKey_cases (k : string) :
  navigationKey k = true ->
  In k ["up"; "k"; "down"; "j"; "enter"; " ";
        "0"; "1"; "2"; "3"; "4"; "5"; "6"; "7"; "8"; "9";
        "backspace"; "esc"].
Proof.
  unfold navigationKey, movementKey, selectKey, digitKey, backKey. intros H.
  apply orb_prop in H. destruct H as [H|H];
    [apply orb_prop in H; destruct H as [H|H];
     [apply orb_prop in H; destruct H as [H|H]|]|];
    apply key_in_cases in H; cbn [In] in *; intuition auto.
Qed.

Lemma navigationKey_not_quit (k : string) :
  navigationKey k = true -> quitKey k = false.
Proof.
  intros H. apply navigationKey_cases in H. cbn [In] in H.
  repeat (destruct H as [H|H]; [subst; reflexivity|]). destruct H.
Qed.

Lemma len_zero_nil {A : Type} (l : list A) : len l = 0 -> l = [].
Proof. destruct l; [reflexivity|]. unfold len. cbn [List.length]. lia. Qed.

(** The outcome of a key press does not depend on the loading flag: with
    the flag replaced by [b] the command is the same, a panic is a panic,
    and the model returned is the same except for the flag, which is the
    [b] put in unless a selection has set it. *)
Lemma Update_ignores_loading (m : model) (b : bool) (k : string) :
  Update (set_loading b m) (KeyMsg k) =
  match Update m (KeyMsg k) with
  | Some (m', c) => Some (if isFetch c then m' else set_loading b m', c)
  | None => None
  end.
Proof.
  destruct (quitKey k) eqn:Hq.
  { rewrite (Update_quitKey m k Hq), (Update_quitKey (set_loading b m) k Hq).
    reflexivity. }
  destruct (upKey k) eqn:Hu.
  { rewrite (Update_upKey m k Hu), (Update_upKey (set_loading b m) k Hu).
    rewrite !keyUp_moves. simpl_model.
    destruct (listScreen (m_state m) && (0 <? cursor m)); reflexivity. }
  destruct (downKey k) eqn:Hd.
  { rewrite (Update_downKey m k Hd), (Update_downKey (set_loading b m) k Hd).
    rewrite !keyDown_moves. unfold displayedLen. simpl_model.
    match goal with
    | |- Some ((if ?c then _ else _), _) = _ => destruct c; reflexivity
    end. }
  destruct (selectKey k) eqn:Hs.
  { rewrite (Update_selectKey m k Hs), (Update_selectKey (set_loading b m) k Hs).
    unfold keyEnter, selectRepo, selectChart, selectVersion. simpl_model.
    destruct (m_state m);
      match goal with
      | |- (if ?c then _ else _) = _ =>
          destruct c; [|reflexivity];
          match goal with
          | |- match ?i with _ => _ end = _ => destruct i; reflexivity
          end
      | |- _ => reflexivity
      end. }
  destruct (backKey k) eqn:Hb.
  { rewrite (Update_backKey m k Hb), (Update_backKey (set_loading b m) k Hb).
    unfold keyBack. simpl_model. destruct (m_state m); reflexivity. }
  rewrite (Update_otherKey m k Hq Hu Hd Hs Hb),
          (Update_otherKey (set_loading b m) k Hq Hu Hd Hs Hb).
  unfold keyDefault. simpl_model.
  destruct (state_eqb (m_state m) stateComplete); [reflexivity|].
  destruct (String.length k =? 1)%nat; [|reflexivity].
  destruct (Atoi k) as [num|]; [|reflexivity].
  destruct ((1 <=? num) && (num <=? pageSize)); [|reflexivity].
  unfold numberShortcut, getPageStart, getCurrentPage. simpl_model.
  generalize (sub (add (mul (quot (cursor m) pageSize) pageSize) num) 1).
  intros i. unfold selectRepo, selectChart, selectVersion. simpl_model.
  destruct (m_state m);
    match goal with
    | |- (if ?c then _ else _) = _ =>
        destruct c; [|reflexivity];
        match goal with
        | |- match ?i with _ => _ end = _ => destruct i; reflexivity
        end
    | |- _ => reflexivity
    end.
Qed.

(** C6 (as the code has it): [Update] never reads the loading flag: for
    every Session and every key, the outcome with the flag replaced by any
    value is the same command (or the same panic) and the same model up to
    the flag, which keeps the value put in unless a selection has set it.
    With the flag set, a navigation key (cursor movement, select, digit,
    back) therefore acts as when loaded: it leaves the Session unchanged
    on the two screens that only wait for a fetch (RefreshingIndex and
    Fetching), and on a list screen whose sequence has not arrived yet
    (empty, cursor 0) every navigation key but back on PackageList and
    VersionList leaves it unchanged; back on a loading PackageList yields
    exactly the RepositoryList screen with the cursor on the recorded
    repository and the charts discarded, and on a loading VersionList
    exactly the PackageList screen with the cursor on the recorded chart
    and the versions discarded, every other field, the set flag included,
    kept. *)
Theorem C6_navigation_while_loading (m : model) (k : string) :
  (forall b : bool,
      Update (set_loading b m) (KeyMsg k) =
      match Update m (KeyMsg k) with
      | Some (m', c) => Some (if isFetch c then m' else set_loading b m', c)
      | None => None
      end) /\
  (loading m = true -> navigationKey k = true ->
   (m_state m = stateRepoUpdate \/ m_state m = stateDownload ->
    Update m (KeyMsg k) = Some (m, None)) /\
   (listScreen (m_state m) = true -> displayedLen m = 0 -> cursor m = 0 ->
    backKey k = false \/ m_state m = stateRepoList ->
    Update m (KeyMsg k) = Some (m, None)) /\
   (backKey k = true -> m_state m = stateChartList ->
    Update m (KeyMsg k) =
      Some (set_charts [] (set_cursor (selectedRepo m) (set_state stateRepoList m)),
            None) /\
    loading (set_charts [] (set_cursor (selectedRepo m) (set_state stateRepoList m)))
      = true) /\
   (backKey k = true -> m_state m = stateVersionList ->
    Update m (KeyMsg k) =
      Some (set_versions [] (set_cursor (selectedChart m) (set_state stateChartList m)),
            None) /\
    loading (set_versions [] (set_cursor (selectedChart m) (set_state stateChartList m)))
      = true)).
Proof.
  split; [intros b; apply Update_ignores_loading|].
  intros Hload Hnav. split; [|split; [|split]].
  - intros Hs. pose proof (navigationKey_not_quit k Hnav) as Hq.
    rewrite keys_off_list, Hq; [reflexivity| |];
      destruct Hs as [Hs|Hs]; rewrite Hs; (reflexivity || discriminate).
  - intros Hls Hlen Hcur Hback.
    apply navigationKey_cases in Hnav.
    destruct m as [st rs cs vs sr sc sv cur ld er ms].
    cbn in Hls, Hlen, Hcur, Hback. subst cur. unfold displayedLen in Hlen.
    cbn [m_state repos charts versions] in Hlen.
    destruct st; try discriminate Hls;
      apply len_zero_nil in Hlen; subst;
      cbn [In] in Hnav;
      repeat (destruct Hnav as [Hnav|Hnav];
              [subst k; try reflexivity;
               destruct Hback as [Hback|Hback]; discriminate Hback|]);
      destruct Hnav.
  - intros Hb Hs. rewrite (Update_backKey m k Hb). unfold keyBack. rewrite Hs.
    split; [reflexivity|exact Hload].
  - intros Hb Hs. rewrite (Update_backKey m k Hb). unfold keyBack. rewrite Hs.
    split; [reflexivity|exact Hload].
Qed.

Lemma C6_navigation_while_loading_witness :
  Update initialModel (KeyMsg "enter") = Some (initialModel, None) /\
  Update (mkModel stateChartList [argo] [] [] 0 0 0 0 true "" "") (KeyMsg "1") =
  Some (mkModel stateChartList [argo] [] [] 0 0 0 0 true "" "", None) /\
  Update (mkModel stateChartList [argo] [] [] 0 0 0 0 true "" "") (KeyMsg "esc") =
  Some (mkModel stateRepoList [argo] [] [] 0 0 0 0 true "" "", None).
Proof.
  split; [|split].
  - exact (proj1 (proj2 (C6_navigation_while_loading initialModel "enter")
                        eq_refl eq_refl)
                 (or_introl eq_refl)).
  - exact (proj1 (proj2 (proj2 (C6_navigation_while_loading
                                  (mkModel stateChartList [argo] [] [] 0 0 0 0 true "" "")
                                  "1") eq_refl eq_refl))
                 eq_refl eq_refl eq_refl (or_introl eq_refl)).
  - exact (proj1 (proj1 (proj2 (proj2 (proj2 (C6_navigation_while_loading
                                  (mkModel stateChartList [argo] [] [] 0 0 0 0 true "" "")
                                  "esc") eq_refl eq_refl)))
                        eq_refl eq_refl)).
Defined.

(** C6 as stated fails: in the session [loadingCharts] the loading flag is
    set, and the back key "esc" still takes the Session from the
    PackageList screen to the RepositoryList screen. *)
Lemma C6_back_while_loading_navigates :
  exists (s : sys) (m' : model),
    run start loadingCharts = Some s /\
    loading (mdl s) = true /\ m_state (mdl s) = stateChartList /\
    Update (mdl s) (KeyMsg "esc") = Some (m', None) /\
    m_state m' = stateRepoList /\ m' <> mdl s.
Proof.
  do 2 eexists. split; [vm_compute; reflexivity|].
  split; [reflexivity|]. split; [reflexivity|].
  split; [vm_compute; reflexivity|]. split; [reflexivity|discriminate].
Qed.

(** ** The artifact file name *)

Lemma Split_nonempty (s : string) (sep : ascii) : Split s sep <> [].
Proof.
  destruct s as [|c r]; cbn [Split]; [discriminate|].
  destruct (Ascii.eqb c sep); [discriminate|].
  destruct (Split r sep); discriminate.
Qed.

Lemma Split_no_slash (s : string) : no_slash s = true -> Split s "/" = [s].
Proof.
  induction s as [|c r IH]; cbn [Split no_slash]; intros H; [reflexivity|].
  apply andb_prop in H. destruct H as [Hc Hr].
  apply negb_true_iff in Hc. rewrite Hc, (IH Hr). reflexivity.
Qed.

Lemma Split_app (r b : string) (sep : ascii) :
  Split (r ++ String sep b) sep = (Split r sep ++ Split b sep)%list.
Proof.
  induction r as [|c r IH]; cbn [Split String.append].
  - rewrite Ascii.eqb_refl. reflexivity.
  - destruct (Ascii.eqb c sep).
    + rewrite IH. reflexivity.
    + rewrite IH. pose proof (Split_nonempty r sep) as Hne.
      destruct (Split r sep); [congruence|reflexivity].
Qed.

Lemma Split_len (s : string) (sep : ascii) :
  len (Split s sep) <= Z.of_nat (String.length s) + 1.
Proof.
  unfold len. induction s as [|c r IH]; cbn [Split String.length List.length].
  - lia.
  - destruct (Ascii.eqb c sep); cbn [List.length]; [lia|].
    pose proof (Split_nonempty r sep) as Hne.
    destruct (Split r sep); [congruence|]. cbn [List.length] in *. lia.
Qed.

Lemma index_last {A : Type} (l : list A) (x : A) :
  len l < max_int -> index (l ++ [x])%list (sub (len (l ++ [x])%list) 1) = Some x.
Proof.
  intros H. pose proof (len_nonneg l) as H0.
  assert (Hl : len (l ++ [x])%list = len l + 1).
  { unfold len. rewrite length_app. cbn [List.length]. lia. }
  rewrite Hl, sub_exact
    by (unfold in_range, min_int, max_int in *; lia).
  replace (len l + 1 - 1) with (len l) by lia.
  destruct (index_Some (l ++ [x])%list (len l)) as [y [Hy Hn]]; [lia|].
  rewrite Hy. unfold len in Hn. rewrite Nat2Z.id, nth_error_app2 in Hn by lia.
  rewrite Nat.sub_diag in Hn. cbn in Hn. congruence.
Qed.

Lemma valuesFilename_last_piece (repository base version : string) :
  no_slash base = true ->
  Z.of_nat (String.length (repository ++ "/" ++ base)) < max_int ->
  valuesFilename (repository ++ "/" ++ base) version =
  Some (spec_filename base version).
Proof.
  intros Hb Hlen. unfold valuesFilename.
  pose proof (Split_len (repository ++ "/" ++ base) "/") as Hl.
  change (repository ++ "/" ++ base) with (repository ++ String "/" base) in *.
  rewrite Split_app, (Split_no_slash base Hb) in *.
  rewrite index_last; [reflexivity|].
  unfold len in *. rewrite length_app in Hl. cbn [List.length] in Hl. lia.
Qed.

Lemma substring_all (s : string) : substring 0 (String.length s) s = s.
Proof. induction s as [|c r IH]; cbn; [reflexivity|]. rewrite IH. reflexivity. Qed.

Lemma TrimPrefix_app (p b : string) : TrimPrefix (p ++ b) p = b.
Proof.
  unfold TrimPrefix.
  assert (Hp : String.prefix p (p ++ b) = true).
  { induction p as [|c r IH]; cbn; [destruct b; reflexivity|].
    destruct (ascii_dec c c); [exact IH|congruence]. }
  rewrite Hp. clear Hp. induction p as [|c r IH]; cbn [String.append String.length].
  - rewrite Nat.sub_0_r. apply substring_all.
  - cbn [Nat.sub substring]. exact IH.
Qed.

Lemma contains_suffix (pre part : string) : contains (pre ++ part) part.
Proof.
  exists pre, EmptyString. f_equal.
  induction part as [|c r IH]; cbn; [reflexivity|]. rewrite <- IH. reflexivity.
Qed.

Lemma append_assoc3 (a b c : string) : (a ++ b) ++ c = a ++ b ++ c.
Proof. induction a as [|x a IH]; cbn; [reflexivity|]. rewrite IH. reflexivity. Qed.

(** Every string splits at its last "/". *)
Lemma last_slash_split (s : string) :
  exists pre base : string,
    s = pre ++ base /\ no_slash base = true /\
    (pre = EmptyString \/ exists p, pre = p ++ "/").
Proof.
  induction s as [|c r [pre [base [Hr [Hb Hp]]]]].
  - exists EmptyString, EmptyString. repeat split. left; reflexivity.
  - destruct (Ascii.eqb c "/") eqn:Hc.
    + apply Ascii.eqb_eq in Hc. subst c.
      exists (String "/" pre), base. split; [cbn; congruence|]. split; [exact Hb|].
      right. destruct Hp as [->|[p ->]].
      * exists EmptyString. reflexivity.
      * exists (String "/" p). reflexivity.
    + destruct Hp as [->|[p ->]].
      * exists EmptyString, (String c base). cbn in Hr. subst r.
        split; [reflexivity|]. split; [|left; reflexivity].
        cbn [no_slash]. rewrite Hc, Hb. reflexivity.
      * exists (String c (p ++ "/")), base. split; [cbn; congruence|].
        split; [exact Hb|]. right. exists (String c p). reflexivity.
Qed.

(** A chart name without "/" is its own base. *)
Lemma valuesFilename_bare (chartName version : string) :
  no_slash chartName = true ->
  valuesFilename chartName version = Some (spec_filename chartName version).
Proof.
  intros Hb. unfold valuesFilename. rewrite (Split_no_slash chartName Hb).
  reflexivity.
Qed.

(** The last piece of a split name. *)
Lemma last_piece_after_slash (p base : string) :
  no_slash base = true ->
  Z.of_nat (String.length (p ++ "/" ++ base)) < max_int ->
  index (Split (p ++ "/" ++ base) "/")
        (sub (len (Split (p ++ "/" ++ base) "/")) 1) = Some base.
Proof.
  intros Hb Hlen.
  pose proof (Split_len (p ++ "/" ++ base) "/") as Hl.
  change (p ++ "/" ++ base) with (p ++ String "/" base) in *.
  rewrite Split_app, (Split_no_slash base Hb) in *.
  apply index_last.
  unfold len in *. rewrite length_app in Hl. cbn [List.length] in Hl. lia.
Qed.

Lemma last_piece_bare (s : string) :
  no_slash s = true ->
  index (Split s "/") (sub (len (Split s "/")) 1) = Some s.
Proof. intros Hb. rewrite (Split_no_slash s Hb). reflexivity. Qed.

(** C9 (as the code has it): for every package qualified name (a Go
    string, so shorter than the largest [int]) and version, the file name
    computed by [downloadValues] is ["{base}-{version}-default-values.yaml"]
    where [base] is what follows the last "/" of the qualified name, or the
    whole name when it has none; this is the qualified name with its
    ["{repository}/"] prefix stripped whenever what follows that prefix
    has no "/".  When the [helm show values] call and the file write
    succeed the command leaves that one file and returns the
    download-complete message carrying the name, and on that message the
    Session reaches the Complete screen with a message containing the
    name. *)
Theorem C9_artifact_filename (chartName version : string) :
  Z.of_nat (String.length chartName) < max_int ->
  exists base : string,
    (exists pre : string,
        chartName = pre ++ base /\
        (pre = EmptyString \/ exists p, pre = p ++ "/")) /\
    no_slash base = true /\
    valuesFilename chartName version = Some (spec_filename base version) /\
    (forall repository rest : string,
        chartName = repository ++ "/" ++ rest -> no_slash rest = true ->
        TrimPrefix chartName (repository ++ "/") = rest /\ base = rest) /\
    (forall (helmShow : string -> string -> option (string + string))
            (writeFile : string -> string -> writeOutcome) (values : string),
        helmShow chartName version = Some (inl values) ->
        writeFile (spec_filename base version) values = WriteOk ->
        run_downloadValues helmShow writeFile chartName version =
          Returned (downloadCompleteMsg (spec_filename base version))
                   [(spec_filename base version, values)]) /\
    delivers (downloadValues chartName version)
             (downloadCompleteMsg (spec_filename base version)) = true /\
    (forall m : model,
        exists m',
          Update m (downloadCompleteMsg (spec_filename base version)) =
            Some (m', None) /\
          m_state m' = stateComplete /\ loading m' = false /\
          contains (message m') (spec_filename base version)).
Proof.
  intros Hlen.
  destruct (last_slash_split chartName) as [pre [base [Hs [Hb Hp]]]].
  assert (Hlast : index (Split chartName "/")
                        (sub (len (Split chartName "/")) 1) = Some base).
  { destruct Hp as [->|[p ->]].
    - cbn in Hs. subst chartName. apply last_piece_bare. exact Hb.
    - subst chartName. rewrite append_assoc3 in *.
      apply last_piece_after_slash; assumption. }
  assert (Hf : valuesFilename chartName version = Some (spec_filename base version)).
  { unfold valuesFilename. rewrite Hlast. reflexivity. }
  exists base. split; [exists pre; split; assumption|].
  split; [exact Hb|]. split; [exact Hf|]. split; [|split; [|split]].
  - intros repository rest Hq Hr. split.
    + rewrite Hq, <- append_assoc3. apply TrimPrefix_app.
    + rewrite Hq in Hlast, Hlen.
      rewrite (last_piece_after_slash repository rest Hr Hlen) in Hlast.
      congruence.
  - intros helmShow writeFile values Hh Hw. unfold run_downloadValues.
    rewrite Hh, Hf, Hw. reflexivity.
  - cbn [delivers]. rewrite Hf. apply String.eqb_refl.
  - intros m. eexists. split; [reflexivity|]. split; [reflexivity|].
    split; [reflexivity|]. cbn [message set_message]. apply contains_suffix.
Qed.

(** Scenario C: selecting version 5.46.8 of argo/argo-cd and receiving the
    result of the download. *)
Lemma C9_artifact_filename_witness :
  valuesFilename "argo/argo-cd" "5.46.8" =
    Some "argo-cd-5.46.8-default-values.yaml" /\
  (exists s,
      run (mkSys scenarioC [])
          [Key "enter";
           Deliver 0 (downloadCompleteMsg "argo-cd-5.46.8-default-values.yaml")]
      = Some s /\
      m_state (mdl s) = stateComplete /\
      contains (message (mdl s)) "argo-cd-5.46.8-default-values.yaml").
Proof.
  destruct (C9_artifact_filename "argo/argo-cd" "5.46.8")
    as [base [_ [_ [Hf [Hrest [_ [_ Hu]]]]]]].
  - vm_compute. reflexivity.
  - destruct (Hrest "argo" "argo-cd" eq_refl eq_refl) as [_ ->].
    split; [exact Hf|].
    destruct (Hu (set_state stateDownload
                    (set_loading true (set_selectedVersion 0 scenarioC))))
      as [m' [Hm [Hs [_ Hc]]]].
    exists (mkSys m' []). split; [|split; [exact Hs|exact Hc]].
    cbn in Hm. injection Hm as <-. vm_compute. reflexivity.
Defined.

(** C9 as stated fails: for the qualified name "argo/sub/chart" of
    repository "argo", stripping the ["{repository}/"] prefix leaves
    "sub/chart", while the file name is built from "chart". *)
Lemma C9_prefix_stripping_differs :
  TrimPrefix "argo/sub/chart" ("argo" ++ "/") = "sub/chart" /\
  valuesFilename "argo/sub/chart" "1.0" = Some "chart-1.0-default-values.yaml" /\
  valuesFilename "argo/sub/chart" "1.0" <>
    Some (spec_filename (TrimPrefix "argo/sub/chart" ("argo" ++ "/")) "1.0").
Proof.
  split; [reflexivity|]. split; [reflexivity|]. vm_compute. discriminate.
Qed.

(** For a name with several "/" the last piece is used. *)
Remark valuesFilename_nested :
  valuesFilename "charts/stable/nginx" "1.0.0" =
  Some "nginx-1.0.0-default-values.yaml".
Proof. reflexivity. Qed.

(** ** Number shortcuts *)

Lemma digit_cases (n : Z) :
  1 <= n <= 9 ->
  n = 1 \/ n = 2 \/ n = 3 \/ n = 4 \/ n = 5 \/ n = 6 \/ n = 7 \/ n = 8 \/ n = 9.
Proof. lia. Qed.

(** A digit key 1-9 reaches the shortcut switch with its value. *)
Lemma Update_digit (m : model) (n : Z) :
  1 <= n <= 9 -> m_state m <> stateComplete ->
  Update m (KeyMsg (keyOfDigit n)) = numberShortcut m n.
Proof.
  intros Hn Hs. apply digit_cases in Hn.
  assert (Hc : state_eqb (m_state m) stateComplete = false)
    by (destruct (m_state m); try reflexivity; congruence).
  assert (Hd : forall k : string,
             In k ["1"; "2"; "3"; "4"; "5"; "6"; "7"; "8"; "9"] ->
             Update m (KeyMsg k) = keyDefault m k).
  { intros k Hk. cbn [In] in Hk.
    repeat (destruct Hk as [Hk|Hk]; [subst k; reflexivity|]). destruct Hk. }
  repeat (destruct Hn as [Hn|Hn];
          [subst n; rewrite Hd by (cbn; auto 10);
           unfold keyDefault; rewrite Hc; reflexivity|]).
  subst n. rewrite Hd by (cbn; auto 10).
  unfold keyDefault; rewrite Hc; reflexivity.
Qed.

Lemma numberShortcut_index (m : model) (n : Z) :
  1 <= n <= 10 -> 0 <= cursor m <= slice_max ->
  sub (add (getPageStart m) n) 1 = getPageStart m + n - 1.
Proof.
  intros Hn Hc.
  assert (Hc1 : 0 <= cursor m <= max_int) by (unfold slice_max, max_int in *; lia).
  pose proof (getPageStart_bounds m Hc1) as Hb.
  rewrite add_exact, sub_exact;
    unfold in_range, min_int, max_int, slice_max in *; lia.
Qed.

(** Digits 1-9 select the item [pageStart + n - 1] of the page when the
    sequence has one, and are ignored when it has not. *)
Lemma shortcut_digit_1_to_9 (m : model) (n : Z) :
  1 <= n <= 9 -> listScreen (m_state m) = true ->
  0 <= cursor m <= slice_max ->
  Update m (KeyMsg (keyOfDigit n)) =
  if getPageStart m + n - 1 <? displayedLen m
  then selectAt m (getPageStart m + n - 1)
  else Some (m, None).
Proof.
  intros Hn Hls Hc. rewrite Update_digit;
    [|exact Hn|destruct (m_state m); discriminate].
  unfold numberShortcut, selectAt, displayedLen.
  rewrite numberShortcut_index by (assumption || lia).
  destruct (m_state m); try discriminate Hls; reflexivity.
Qed.

(** A selection inside the sequence does not panic: it records the index
    and issues a fetch. *)
Lemma selectAt_in_range (m : model) (i : Z) :
  listScreen (m_state m) = true -> 0 <= i < displayedLen m ->
  exists m' c,
    selectAt m i = Some (m', Some c) /\ loading m' = true /\
    match m_state m with
    | stateRepoList => selectedRepo m' = i /\ m_state m' = stateChartList
    | stateChartList => selectedChart m' = i /\ m_state m' = stateVersionList
    | _ => selectedVersion m' = i /\ m_state m' = stateDownload
    end.
Proof.
  intros Hls Hi. unfold selectAt, displayedLen in *.
  destruct (m_state m); try discriminate Hls.
  - unfold selectRepo. cbn [repos selectedRepo set_state set_loading set_cursor set_selectedRepo].
    destruct (index_Some (repos m) i Hi) as [x [Hx _]]. rewrite Hx.
    do 2 eexists. split; [reflexivity|]. repeat split.
  - unfold selectChart. cbn [charts selectedChart set_state set_loading set_cursor set_selectedChart].
    destruct (index_Some (charts m) i Hi) as [x [Hx _]]. rewrite Hx.
    do 2 eexists. split; [reflexivity|]. repeat split.
  - unfold selectVersion. cbn [versions selectedVersion set_state set_loading set_selectedVersion].
    destruct (index_Some (versions m) i Hi) as [x [Hx _]]. rewrite Hx.
    do 2 eexists. split; [reflexivity|]. repeat split.
Qed.

(** The digit key 0 never reaches the shortcut switch: [Atoi] gives 0,
    which the guard [num >= 1] rejects. *)
Lemma shortcut_zero_ignored (m : model) :
  m_state m <> stateComplete -> Update m (KeyMsg "0") = Some (m, None).
Proof.
  intros Hs. change (Update m (KeyMsg "0")) with (keyDefault m "0").
  unfold keyDefault.
  destruct (m_state m); try congruence; reflexivity.
Qed.

(** C1, at the Session [tenRepos] (ten repositories, cursor 0, hence
    [pageStart = 0] and item [pageStart + 9] exists): the key "9" selects
    item 8, and the key "0", which the specification, the help line of
    [View] and the README map to item [pageStart + 9], leaves the Session
    unchanged and issues no fetch. *)
Theorem C1_zero_key_selects_nothing :
  getPageStart tenRepos + 9 < len (repos tenRepos) /\
  index (repos tenRepos) (getPageStart tenRepos + 9) =
    Some (mkRepo "r10" "https://charts.example.org") /\
  Update tenRepos (KeyMsg "9") =
    Some (set_state stateChartList
            (set_loading true (set_cursor 0 (set_selectedRepo 8 tenRepos))),
          Some (loadCharts "r9")) /\
  Update tenRepos (KeyMsg "0") = Some (tenRepos, None).
Proof.
  split; [vm_compute; reflexivity|]. repeat split; vm_compute; reflexivity.
Qed.

(** * Further properties of the code *)

(** ** The page and the position within it *)

Lemma index_Some_bounds {A : Type} (l : list A) (i : Z) (x : A) :
  index l i = Some x -> 0 <= i < len l.
Proof.
  unfold index. destruct (Z.ltb_spec i 0); [discriminate|].
  destruct (Z.leb_spec (len l) i); [discriminate|]. lia.
Qed.

Lemma rem10_bounds (c : Z) :
  - 10 < Z.rem c 10 < 10 /\
  (0 <= c -> 0 <= Z.rem c 10) /\ (c <= 0 -> Z.rem c 10 <= 0).
Proof.
  destruct (Z.lt_trichotomy c 0) as [H|[H|H]].
  - pose proof (Z.rem_bound_pos (- c) 10 ltac:(lia) ltac:(lia)) as H1.
    pose proof (Z.rem_opp_l (- c) 10 ltac:(lia)) as H2.
    rewrite Z.opp_involutive in H2. lia.
  - subst c. cbn. lia.
  - pose proof (Z.rem_bound_pos c 10 ltac:(lia) ltac:(lia)). lia.
Qed.

(** Quotient and remainder by the page size, as [int] operations. *)
Lemma quot_rem_page (c : Z) :
  in_range c -> wrap (wrap (c ÷ 10) * 10) + Z.rem c 10 = c.
Proof.
  intros Hr. pose proof (Z.quot_rem' c 10) as Hq.
  destruct (rem10_bounds c) as [Hb [Hs Hn]].
  unfold in_range, min_int, max_int in Hr.
  rewrite (wrap_id (c ÷ 10)) by (unfold in_range, min_int, max_int; lia).
  rewrite wrap_id by (unfold in_range, min_int, max_int; lia).
  lia.
Qed.

(** [getPageStart] and [getCursorInPage] split the cursor: their sum is
    the cursor, for every [int] value of it, and for a cursor that is not
    negative the position within the page is one of [0..9]. *)
Theorem page_decomposition (m : model) :
  in_range (cursor m) ->
  getPageStart m + getCursorInPage m = cursor m /\
  (0 <= cursor m -> 0 <= getCursorInPage m < pageSize).
Proof.
  intros Hr. split.
  - unfold getPageStart, getCurrentPage, getCursorInPage, mul, quot, rem, pageSize.
    apply quot_rem_page. exact Hr.
  - intros H. unfold getCursorInPage, rem, pageSize.
    destruct (rem10_bounds (cursor m)) as [Hb [Hs _]]. specialize (Hs H). lia.
Qed.

Lemma page_decomposition_witness :
  getPageStart scenarioB + getCursorInPage scenarioB = 23 /\
  getCursorInPage scenarioB = 3.
Proof.
  destruct (page_decomposition scenarioB) as [H _].
  - vm_compute. split; discriminate.
  - split; [exact H|reflexivity].
Defined.

(** Every row the loop produces sits at the position of its index. *)
Lemma rowLoop_nth {A : Type} (m : model) (l : list A) (end_ : Z) :
  end_ <= slice_max ->
  forall (fuel : nat) (i : Z) (rows : list (row A)),
    0 <= i -> rowLoop fuel m l i end_ = Some rows ->
    Z.of_nat (List.length rows) = Z.max 0 (end_ - i) /\
    forall (k : nat) (r : row A),
      nth_error rows k = Some r ->
      row_index r = i + Z.of_nat k /\
      index l (row_index r) = Some (row_item r) /\
      row_selected r = (row_index r =? cursor m).
Proof.
  intros Hmax. induction fuel as [|fuel IH]; intros i rows Hi Hrun;
    cbn [rowLoop] in Hrun; [discriminate|].
  destruct (Z.ltb_spec i end_) as [Hlt|Hge].
  - destruct (index l i) as [x|] eqn:Hx; [|discriminate].
    assert (Hadd : add i 1 = i + 1).
    { apply add_exact. unfold in_range, min_int, max_int, slice_max in *. lia. }
    rewrite Hadd in Hrun.
    destruct (rowLoop fuel m l (i + 1) end_) as [rs|] eqn:Hrs; [|discriminate].
    injection Hrun as <-.
    destruct (IH (i + 1) rs ltac:(lia) Hrs) as [Hl Hn].
    split; [cbn [List.length]; lia|].
    intros [|k] r Hk; cbn [nth_error] in Hk.
    + injection Hk as <-. cbn. split; [lia|]. split; [exact Hx|reflexivity].
    + destruct (Hn k r Hk) as [H1 H2]. split; [lia|exact H2].
  - injection Hrun as <-. split; [cbn; lia|].
    intros [|k] r Hk; discriminate Hk.
Qed.

Lemma viewRows_facts {A : Type} (m : model) (l : list A) (rows : list (row A)) :
  0 <= cursor m <= slice_max -> len l <= slice_max ->
  viewRows m l = Some rows ->
  Z.of_nat (List.length rows) = Z.max 0 (Z.min (getPageStart m + 10) (len l) - getPageStart m) /\
  forall (k : nat) (r : row A),
    nth_error rows k = Some r ->
    row_index r = getPageStart m + Z.of_nat k /\
    index l (row_index r) = Some (row_item r) /\
    row_selected r = (row_index r =? cursor m).
Proof.
  intros Hc Hl Hv. unfold viewRows in Hv.
  assert (Hc1 : 0 <= cursor m <= max_int) by (unfold slice_max, max_int in *; lia).
  pose proof (getPageStart_bounds m Hc1) as Hb.
  pose proof (getPageEnd_exact m (len l) Hc) as He.
  assert (Hend : getPageEnd m (len l) <= slice_max) by lia.
  destruct (rowLoop_nth m l (getPageEnd m (len l)) Hend _ (getPageStart m) rows
              ltac:(lia) Hv) as [H1 H2].
  rewrite He in H1. split; assumption.
Qed.

(** The row loop runs to its end for every cursor that is not negative. *)
Lemma viewRows_some {A : Type} (m : model) (l : list A) :
  0 <= cursor m <= slice_max -> len l <= slice_max ->
  exists rows,
    viewRows m l = Some rows /\
    Z.of_nat (List.length rows) =
      Z.max 0 (Z.min (getPageStart m + 10) (len l) - getPageStart m).
Proof.
  intros Hc Hl.
  assert (Hc1 : 0 <= cursor m <= max_int) by (unfold slice_max, max_int in *; lia).
  pose proof (getPageStart_bounds m Hc1) as Hb.
  pose proof (getPageEnd_exact m (len l) Hc) as He.
  pose proof (len_nonneg l) as Hl0.
  destruct (rowLoop_total m l (getPageEnd m (len l)) ltac:(lia) ltac:(lia)
              (Z.to_nat (getPageEnd m (len l) - getPageStart m))
              (getPageStart m)
              (S (Z.to_nat (getPageEnd m (len l) - getPageStart m))))
    as [rows [Hr [Hlen _]]]; [lia|lia|lia|].
  exists rows. split; [exact Hr|]. rewrite Hlen, He. lia.
Qed.

(** For every cursor that is not negative the row loop of [View] ends
    without indexing out of range, also when the cursor lies beyond the
    sequence; it shows [min (pageStart + 10) L - pageStart] rows, none when
    the cursor's page starts at or after the end, and marks a row only if
    the cursor is inside the sequence. *)
Theorem viewRows_total {A : Type} (m : model) (l : list A) :
  0 <= cursor m <= slice_max -> len l <= slice_max ->
  exists rows,
    viewRows m l = Some rows /\
    Z.of_nat (List.length rows) =
      Z.max 0 (Z.min (getPageStart m + 10) (len l) - getPageStart m) /\
    (len l <= getPageStart m -> rows = []) /\
    (len l <= cursor m -> Forall (fun r => row_selected r = false) rows).
Proof.
  intros Hc Hl.
  destruct (viewRows_some m l Hc Hl) as [rows [Hr Hlen]].
  destruct (viewRows_facts m l rows Hc Hl Hr) as [_ Hn].
  exists rows. split; [exact Hr|]. split; [exact Hlen|]. split.
  - intros Hge. destruct rows; [reflexivity|].
    cbn [List.length] in Hlen. lia.
  - intros Hge. apply Forall_forall. intros r Hin.
    apply In_nth_error in Hin. destruct Hin as [k Hk].
    destruct (Hn k r Hk) as [Hi [Hx Hs]].
    apply index_Some_bounds in Hx.
    rewrite Hs. apply Z.eqb_neq. lia.
Qed.

Lemma viewRows_total_witness :
  exists rows,
    viewRows (set_cursor 14 scenarioC) (versions scenarioC) = Some rows /\
    rows = [].
Proof.
  destruct (viewRows_total (set_cursor 14 scenarioC) (versions scenarioC))
    as [rows [Hr [_ [He _]]]].
  - vm_compute. split; discriminate.
  - vm_compute. discriminate.
  - exists rows. split; [exact Hr|]. apply He. vm_compute. discriminate.
Defined.

(** With the cursor inside the sequence, the row at position
    [getCursorInPage] of the page is the cursor's item and is the one row
    marked as selected. *)
Theorem viewRows_highlight {A : Type} (m : model) (l : list A) :
  len l <= slice_max -> 0 <= cursor m < len l ->
  exists rows r,
    viewRows m l = Some rows /\
    nth_error rows (Z.to_nat (getCursorInPage m)) = Some r /\
    row_index r = cursor m /\ index l (cursor m) = Some (row_item r) /\
    row_selected r = true /\
    forall (k : nat) (r' : row A),
      nth_error rows k = Some r' -> row_selected r' = true ->
      k = Z.to_nat (getCursorInPage m).
Proof.
  intros Hl Hc.
  assert (Hc2 : 0 <= cursor m <= slice_max) by lia.
  assert (Hc1 : 0 <= cursor m <= max_int) by (unfold slice_max, max_int in *; lia).
  pose proof (getPageStart_bounds m Hc1) as Hb.
  assert (Hd : getPageStart m + getCursorInPage m = cursor m).
  { unfold getPageStart, getCurrentPage, getCursorInPage, mul, quot, rem, pageSize.
    apply quot_rem_page. unfold in_range, min_int, max_int in *; lia. }
  assert (Hp : 0 <= getCursorInPage m < 10).
  { unfold getCursorInPage, rem, pageSize.
    destruct (rem10_bounds (cursor m)) as [Hb' [Hs' _]]. lia. }
  destruct (viewRows_some m l Hc2 Hl) as [rows [Hr Hlen]].
  destruct (viewRows_facts m l rows Hc2 Hl Hr) as [_ Hn].
  destruct (nth_error rows (Z.to_nat (getCursorInPage m))) as [r|] eqn:Hk.
  - destruct (Hn _ r Hk) as [Hi [Hx Hs]].
    assert (Hi' : row_index r = cursor m) by lia.
    exists rows, r. split; [exact Hr|]. split; [exact Hk|].
    split; [exact Hi'|]. split; [rewrite <- Hi'; exact Hx|].
    split; [rewrite Hs; apply Z.eqb_eq; exact Hi'|].
    intros k r' Hk' Hs'. destruct (Hn k r' Hk') as [Hi2 [_ Hs2]].
    rewrite Hs2 in Hs'. apply Z.eqb_eq in Hs'. lia.
  - apply nth_error_None in Hk. lia.
Qed.

Lemma viewRows_highlight_witness :
  exists rows r,
    viewRows scenarioB charts25 = Some rows /\
    nth_error rows 3 = Some r /\ row_index r = 23 /\ row_selected r = true.
Proof.
  destruct (viewRows_highlight scenarioB charts25)
    as [rows [r [Hr [Hk [Hi [_ [Hs _]]]]]]].
  - vm_compute. discriminate.
  - vm_compute. split; [discriminate|reflexivity].
  - exists rows, r. split; [exact Hr|]. split; [exact Hk|].
    split; [exact Hi|exact Hs].
Defined.

(** ** The pagination line *)



(** ** Keys on the list screens *)

(** The digit [n] (1-9) selects the [n]-th row shown by [View], whatever
    the page, and issues the fetch for that row's item; the number printed
    on that row is [pageStart + n], so it is the digit only on the first
    page.  When the page has fewer than [n] rows the digit is ignored. *)
Theorem shortcut_selects_displayed_row (m : model) (n : Z) :
  1 <= n <= 9 -> 0 <= cursor m <= slice_max -> sizes_ok m ->
  (m_state m = stateRepoList ->
   exists rows,
     viewRows m (repos m) = Some rows /\
     match nth_error rows (Z.to_nat (n - 1)) with
     | Some r =>
         rowNumber (row_index r) = getPageStart m + n /\
         Update m (KeyMsg (keyOfDigit n)) =
           Some (set_state stateChartList
                   (set_loading true (set_cursor 0 (set_selectedRepo (row_index r) m))),
                 Some (loadCharts (repo_Name (row_item r))))
     | None => Update m (KeyMsg (keyOfDigit n)) = Some (m, None)
     end) /\
  (m_state m = stateChartList ->
   exists rows,
     viewRows m (charts m) = Some rows /\
     match nth_error rows (Z.to_nat (n - 1)) with
     | Some r =>
         rowNumber (row_index r) = getPageStart m + n /\
         Update m (KeyMsg (keyOfDigit n)) =
           Some (set_state stateVersionList
                   (set_loading true (set_cursor 0 (set_selectedChart (row_index r) m))),
                 Some (loadVersions (chart_Name (row_item r))))
     | None => Update m (KeyMsg (keyOfDigit n)) = Some (m, None)
     end) /\
  (m_state m = stateVersionList ->
   exists rows,
     viewRows m (versions m) = Some rows /\
     match nth_error rows (Z.to_nat (n - 1)) with
     | Some r =>
         rowNumber (row_index r) = getPageStart m + n /\
         Update m (KeyMsg (keyOfDigit n)) =
           Some (set_state stateDownload
                   (set_loading true (set_selectedVersion (row_index r) m)),
                 Some (downloadValues (version_Name (row_item r))
                                      (version_Version (row_item r))))
     | None => Update m (KeyMsg (keyOfDigit n)) = Some (m, None)
     end).
Proof.
  intros Hn Hc [Hs1 [Hs2 Hs3]].
  assert (Hc1 : 0 <= cursor m <= max_int) by (unfold slice_max, max_int in *; lia).
  pose proof (getPageStart_bounds m Hc1) as Hb.
  split; [|split]; intros Hs;
    [destruct (viewRows_some m (repos m) Hc Hs1) as [rows [Hr Hlen]];
     destruct (viewRows_facts m (repos m) rows Hc Hs1 Hr) as [_ Hnth]
    |destruct (viewRows_some m (charts m) Hc Hs2) as [rows [Hr Hlen]];
     destruct (viewRows_facts m (charts m) rows Hc Hs2 Hr) as [_ Hnth]
    |destruct (viewRows_some m (versions m) Hc Hs3) as [rows [Hr Hlen]];
     destruct (viewRows_facts m (versions m) rows Hc Hs3 Hr) as [_ Hnth]];
    (exists rows; split; [exact Hr|]);
    rewrite shortcut_digit_1_to_9 by (assumption || (rewrite Hs; reflexivity));
    unfold displayedLen, selectAt; rewrite Hs;
    (destruct (nth_error rows (Z.to_nat (n - 1))) as [r|] eqn:Hk;
     [ destruct (Hnth _ r Hk) as [Hi [Hx _]];
       assert (Hlt : (Z.to_nat (n - 1) < List.length rows)%nat)
         by (apply nth_error_Some; congruence);
       assert (Hi' : getPageStart m + n - 1 = row_index r) by lia;
       split;
       [ unfold rowNumber; rewrite add_exact
           by (unfold in_range, min_int, max_int, slice_max in *; lia); lia
       | rewrite Hi';
         match goal with
         | |- (if ?a <? ?b then _ else _) = _ =>
             destruct (Z.ltb_spec a b); [|lia]
         end;
         unfold selectRepo, selectChart, selectVersion;
         cbn [repos charts versions selectedRepo selectedChart selectedVersion
              set_state set_loading set_cursor set_selectedRepo
              set_selectedChart set_selectedVersion];
         rewrite Hx; reflexivity ]
     | apply nth_error_None in Hk;
       match goal with
       | |- (if ?a <? ?b then _ else _) = _ =>
           destruct (Z.ltb_spec a b); [lia|reflexivity]
       end ]).
Qed.

Lemma shortcut_selects_displayed_row_witness :
  exists rows r,
    viewRows scenarioB charts25 = Some rows /\
    nth_error rows 2 = Some r /\
    rowNumber (row_index r) = 23 /\
    Update scenarioB (KeyMsg "3") =
      Some (set_state stateVersionList
              (set_loading true (set_cursor 0 (set_selectedChart 22 scenarioB))),
            Some (loadVersions "argo/argo-cd")).
Proof.
  destruct (shortcut_selects_displayed_row scenarioB 3) as [_ [H _]].
  - lia.
  - vm_compute. split; discriminate.
  - vm_compute. repeat split; discriminate.
  - destruct (H eq_refl) as [rows [Hr Hk]].
    destruct (nth_error rows (Z.to_nat (3 - 1))) as [r|] eqn:Hn.
    + exists rows, r. split; [exact Hr|]. split; [exact Hn|].
      destruct Hk as [Hnum Hu]. split; [exact Hnum|].
      vm_compute. reflexivity.
    + exfalso. vm_compute in Hr. injection Hr as <-. discriminate Hn.
Defined.

(** A one-character key that [Atoi] reads as a number the shortcut guard
    accepts is one of "1".."9". *)
Lemma Atoi_one_char (c : ascii) :
  match Atoi (String c EmptyString) with
  | Some num =>
      (1 <=? num) && (num <=? pageSize) = true ->
      shortcutKey (String c EmptyString) = true
  | None => True
  end.
Proof.
  destruct c as [[] [] [] [] [] [] [] []]; vm_compute;
    try exact I; intros H; (reflexivity || discriminate H).
Qed.

(** On every screen but Complete, a key that is neither a quit, movement,
    select or back key nor one of the digits 1-9 changes nothing and
    issues no command; this covers the digit 0, letters, and every key
    whose text is longer than one character. *)
Theorem unbound_keys_ignored (m : model) (k : string) :
  m_state m <> stateComplete ->
  quitKey k = false -> movementKey k = false -> selectKey k = false ->
  backKey k = false -> shortcutKey k = false ->
  Update m (KeyMsg k) = Some (m, None).
Proof.
  intros Hs Hq Hm Hsel Hb Hsc.
  apply movementKey_false in Hm. destruct Hm as [Hu Hd].
  rewrite (Update_otherKey m k Hq Hu Hd Hsel Hb). unfold keyDefault.
  assert (Hc : state_eqb (m_state m) stateComplete = false)
    by (destruct (m_state m); try reflexivity; congruence).
  rewrite Hc. destruct k as [|c [|c' r]]; try reflexivity.
  cbn [String.length Nat.eqb].
  pose proof (Atoi_one_char c) as Ha.
  destruct (Atoi (String c EmptyString)) as [num|]; [|reflexivity].
  destruct ((1 <=? num) && (num <=? pageSize)); [|reflexivity].
  rewrite Ha in Hsc by reflexivity. discriminate Hsc.
Qed.

Lemma unbound_keys_ignored_witness :
  Update scenarioB (KeyMsg "pgdown") = Some (scenarioB, None).
Proof.
  apply (unbound_keys_ignored scenarioB "pgdown");
    (discriminate || reflexivity).
Defined.

(** The select keys (enter, space) on a list screen: nothing happens on
    an empty sequence; with the cursor inside the sequence the item under
    the cursor is selected and its fetch issued; with a non-empty sequence
    and the cursor outside it, [Update] panics on the slice index. *)
Theorem enter_selects_cursor (m : model) (k : string) :
  selectKey k = true -> listScreen (m_state m) = true ->
  (displayedLen m = 0 -> Update m (KeyMsg k) = Some (m, None)) /\
  (0 <= cursor m < displayedLen m ->
   Update m (KeyMsg k) = selectAt m (cursor m) /\
   exists m' c, selectAt m (cursor m) = Some (m', Some c) /\ loading m' = true) /\
  (0 < displayedLen m -> cursor m < 0 \/ displayedLen m <= cursor m ->
   Update m (KeyMsg k) = None).
Proof.
  intros Hk Hls. rewrite (Update_selectKey m k Hk).
  unfold keyEnter, displayedLen, selectAt.
  split; [|split].
  - intros H0. destruct (m_state m); try discriminate Hls; rewrite H0; reflexivity.
  - intros Hc. split.
    + destruct (m_state m); try discriminate Hls;
        (match goal with
         | |- (if ?a <? ?b then _ else _) = _ => destruct (Z.ltb_spec a b); [reflexivity|lia]
         end).
    + destruct (selectAt_in_range m (cursor m) Hls) as [m' [c [H1 [H2 _]]]].
      * unfold displayedLen. exact Hc.
      * exists m', c. unfold selectAt in H1. split; assumption.
  - intros Hpos Hout.
    destruct (m_state m); try discriminate Hls;
      (match goal with
       | |- (if ?a <? ?b then _ else _) = _ => destruct (Z.ltb_spec a b); [|lia]
       end);
      unfold selectRepo, selectChart, selectVersion;
      cbn [repos charts versions selectedRepo selectedChart selectedVersion
           set_state set_loading set_cursor set_selectedRepo
           set_selectedChart set_selectedVersion];
      rewrite index_None by exact Hout; reflexivity.
Qed.

Lemma enter_selects_cursor_witness :
  Update (set_cursor 1 scenarioC) (KeyMsg " ") =
  Some (set_state stateDownload
          (set_loading true (set_selectedVersion 1 (set_cursor 1 scenarioC))),
        Some (downloadValues "argo/argo-cd" "5.46.7")) /\
  Update (set_cursor 2 scenarioC) (KeyMsg "enter") = None.
Proof.
  split.
  - destruct (enter_selects_cursor (set_cursor 1 scenarioC) " " eq_refl eq_refl)
      as [_ [H _]].
    destruct H as [H _]; [vm_compute; split; [discriminate|reflexivity]|].
    rewrite H. reflexivity.
  - destruct (enter_selects_cursor (set_cursor 2 scenarioC) "enter" eq_refl eq_refl)
      as [_ [_ H]].
    apply H; [reflexivity|right; vm_compute; discriminate].
Defined.

(** Select followed by back returns to the same screen with the cursor on
    the item that was selected: the Session is the one before the select
    except that the selection is recorded, the child sequence is empty and
    the loading flag is set (the fetch issued by the select still runs). *)
Theorem select_then_back (m : model) (ks kb : string) :
  selectKey ks = true -> backKey kb = true ->
  0 <= cursor m < displayedLen m ->
  (m_state m = stateRepoList ->
   exists m1 c,
     Update m (KeyMsg ks) = Some (m1, Some c) /\
     Update m1 (KeyMsg kb) =
       Some (set_charts [] (set_loading true (set_selectedRepo (cursor m) m)), None)) /\
  (m_state m = stateChartList ->
   exists m1 c,
     Update m (KeyMsg ks) = Some (m1, Some c) /\
     Update m1 (KeyMsg kb) =
       Some (set_versions [] (set_loading true (set_selectedChart (cursor m) m)), None)).
Proof.
  intros Hs Hb Hc. split; intros Hst;
    rewrite (Update_selectKey m ks Hs); unfold keyEnter, displayedLen in *;
    rewrite Hst in *;
    (match goal with
     | |- exists _ _, (if ?a <? ?b then _ else _) = _ /\ _ =>
         destruct (Z.ltb_spec a b); [|lia]
     end);
    unfold selectRepo, selectChart;
    cbn [repos charts selectedRepo selectedChart
         set_state set_loading set_cursor set_selectedRepo set_selectedChart].
  - destruct (index_Some (repos m) (cursor m) Hc) as [x [Hx _]]. rewrite Hx.
    do 2 eexists. split; [reflexivity|].
    rewrite (Update_backKey _ kb Hb). unfold keyBack.
    destruct m; cbn in *; subst; reflexivity.
  - destruct (index_Some (charts m) (cursor m) Hc) as [x [Hx _]]. rewrite Hx.
    do 2 eexists. split; [reflexivity|].
    rewrite (Update_backKey _ kb Hb). unfold keyBack.
    destruct m; cbn in *; subst; reflexivity.
Qed.

Lemma select_then_back_witness :
  exists m1 c,
    Update scenarioB (KeyMsg "enter") = Some (m1, Some c) /\
    Update m1 (KeyMsg "esc") =
      Some (set_versions [] (set_loading true (set_selectedChart 23 scenarioB)), None).
Proof.
  destruct (select_then_back scenarioB "enter" "esc" eq_refl eq_refl) as [_ H].
  - vm_compute. split; [discriminate|reflexivity].
  - exact (H eq_refl).
Defined.

(** ** Repeated cursor movement *)

Lemma set_cursor_same (m : model) : set_cursor (cursor m) m = m.
Proof. destruct m; reflexivity. Qed.

Lemma set_cursor_twice (a b : Z) (m : model) :
  set_cursor a (set_cursor b m) = set_cursor a m.
Proof. reflexivity. Qed.

(** From a cursor inside the sequence, [n] presses of a down key lead to
    cursor [min (L - 1) (c + n)] and [n] presses of an up key to
    [max 0 (c - n)], nothing else changing: every item can be reached
    with the movement keys, and further presses stop at the two ends. *)
Theorem presses_move_cursor (k : string) (n : nat) :
  forall m : model,
    listScreen (m_state m) = true -> displayedLen m <= slice_max ->
    0 <= cursor m < displayedLen m ->
    (downKey k = true ->
     presses k n m =
       Some (set_cursor (Z.min (displayedLen m - 1) (cursor m + Z.of_nat n)) m)) /\
    (upKey k = true ->
     presses k n m = Some (set_cursor (Z.max 0 (cursor m - Z.of_nat n)) m)).
Proof.
  induction n as [|n IH]; intros m Hls Hmax Hc.
  - cbn [presses]. split; intros _; f_equal.
    + replace (Z.min _ _) with (cursor m) by lia. symmetry. apply set_cursor_same.
    + replace (Z.max _ _) with (cursor m) by lia. symmetry. apply set_cursor_same.
  - cbn [presses]. split; intros Hk.
    + rewrite (Update_downKey m k Hk), keyDown_moves, Hls. cbn [andb].
      rewrite sub_exact
        by (unfold in_range, min_int, max_int, slice_max in *; lia).
      destruct (Z.ltb_spec (cursor m) (displayedLen m - 1)).
      * rewrite add_exact
          by (unfold in_range, min_int, max_int, slice_max in *; lia).
        destruct (IH (set_cursor (cursor m + 1) m)) as [Hd _];
          [exact Hls|exact Hmax|cbn [cursor set_cursor]; rewrite displayedLen_set_cursor; lia|].
        rewrite (Hd Hk), displayedLen_set_cursor, set_cursor_twice.
        cbn [cursor set_cursor]. do 2 f_equal. lia.
      * destruct (IH m Hls Hmax Hc) as [Hd _]. rewrite (Hd Hk).
        do 2 f_equal. lia.
    + rewrite (Update_upKey m k Hk), keyUp_moves, Hls. cbn [andb].
      destruct (Z.ltb_spec 0 (cursor m)).
      * rewrite sub_exact
          by (unfold in_range, min_int, max_int, slice_max in *; lia).
        destruct (IH (set_cursor (cursor m - 1) m)) as [_ Hu];
          [exact Hls|exact Hmax|cbn [cursor set_cursor]; rewrite displayedLen_set_cursor; lia|].
        rewrite (Hu Hk), set_cursor_twice.
        cbn [cursor set_cursor]. do 2 f_equal. lia.
      * destruct (IH m Hls Hmax Hc) as [_ Hu]. rewrite (Hu Hk).
        do 2 f_equal. lia.
Qed.

Lemma presses_move_cursor_witness :
  presses "j" 40 (set_cursor 0 scenarioB) = Some (set_cursor 24 scenarioB) /\
  presses "up" 3 scenarioB = Some (set_cursor 20 scenarioB).
Proof.
  split.
  - destruct (presses_move_cursor "j" 40 (set_cursor 0 scenarioB)) as [H _].
    + reflexivity.
    + vm_compute. discriminate.
    + vm_compute. split; [discriminate|reflexivity].
    + rewrite (H eq_refl). reflexivity.
  - destruct (presses_move_cursor "up" 3 scenarioB) as [_ H].
    + reflexivity.
    + vm_compute. discriminate.
    + vm_compute. split; [discriminate|reflexivity].
    + rewrite (H eq_refl). reflexivity.
Defined.

(** ** The command closures *)

Lemma prefix_append (p s : string) : String.prefix p (p ++ s) = true.
Proof.
  induction p as [|c r IH]; cbn; [destruct s; reflexivity|].
  destruct (ascii_dec c c); [exact IH|congruence].
Qed.

(** For every chart name (a Go string) the file name is computed without
    a panic, and its base is what follows the last "/" of the name, or the
    whole name when it has none; so the base never contains a "/". *)
Theorem valuesFilename_total (chartName version : string) :
  Z.of_nat (String.length chartName) < max_int ->
  exists pre base : string,
    chartName = pre ++ base /\ no_slash base = true /\
    (pre = EmptyString \/ exists p, pre = p ++ "/") /\
    valuesFilename chartName version = Some (spec_filename base version).
Proof.
  intros Hlen. destruct (last_slash_split chartName) as [pre [base [Hs [Hb Hp]]]].
  exists pre, base. split; [exact Hs|]. split; [exact Hb|]. split; [exact Hp|].
  destruct Hp as [->|[p ->]].
  - cbn in Hs. subst chartName. apply valuesFilename_bare. exact Hb.
  - subst chartName. rewrite append_assoc3 in *.
    apply valuesFilename_last_piece; assumption.
Qed.

Lemma valuesFilename_total_witness :
  exists pre base,
    "oci-mirror/team/argo-cd" = pre ++ base /\ no_slash base = true /\
    valuesFilename "oci-mirror/team/argo-cd" "5.46.8" =
      Some (spec_filename base "5.46.8").
Proof.
  destruct (valuesFilename_total "oci-mirror/team/argo-cd" "5.46.8")
    as [pre [base [H1 [H2 [_ H3]]]]].
  - vm_compute. reflexivity.
  - exists pre, base. split; [exact H1|]. split; [exact H2|exact H3].
Defined.

Lemma valuesFilename_some (chartName version : string) :
  Z.of_nat (String.length chartName) < max_int ->
  exists name, valuesFilename chartName version = Some name.
Proof.
  intros Hlen.
  destruct (last_slash_split chartName) as [pre [base [Hs [Hb [->|[p ->]]]]]].
  - cbn in Hs. subst chartName. eexists. apply valuesFilename_bare. exact Hb.
  - subst chartName. rewrite append_assoc3 in *. eexists.
    apply valuesFilename_last_piece; assumption.
Qed.

Ltac returned_delivers :=
  let H := fresh "H" in
  let E := fresh "E" in
  intros ? ? H;
  first [ discriminate H
        | match type of H with
          | Returned ?a _ = Returned ?m _ =>
              assert (E : m = a) by congruence; rewrite E; clear E H
          end;
          cbn [delivers]; rewrite ?prefix_append, ?orb_true_r; reflexivity ].

(** Each command closure but [tea.Quit] waits for its one [helm] call: if
    that subprocess never exits the closure never returns; if it exits
    (and, for [downloadValues], the file write does not block) the closure
    returns a message.  It never panics, and every message it returns is
    one the event loop expects of that command: its own success message,
    or an error message whose text starts with one of its own
    "Failed to ..." prefixes. *)
Theorem exec_delivers
    (helm : list string -> option (string + string))
    (unmarshalRepos : string -> list HelmRepo + string)
    (unmarshalCharts : string -> list HelmChart + string)
    (unmarshalVersions : string -> list HelmVersion + string)
    (writeFile : string -> string -> writeOutcome) (c : Cmd) :
  c <> Quit ->
  (forall n v, c = downloadValues n v -> Z.of_nat (String.length n) < max_int) ->
  (helm (helmArgs c) = None ->
   exec helm unmarshalRepos unmarshalCharts unmarshalVersions writeFile c = Blocked) /\
  (helm (helmArgs c) <> None ->
   (forall name data, writeFile name data <> WriteBlocks) ->
   exists msg files,
     exec helm unmarshalRepos unmarshalCharts unmarshalVersions writeFile c =
       Returned msg files) /\
  exec helm unmarshalRepos unmarshalCharts unmarshalVersions writeFile c
    <> Panicked /\
  (forall msg files,
      exec helm unmarshalRepos unmarshalCharts unmarshalVersions writeFile c =
        Returned msg files ->
      delivers c msg = true).
Proof.
  intros Hq Hlen.
  destruct c as [| | |n|n|n v]; [congruence| | | | |]; cbn [exec helmArgs].
  - unfold run_updateRepos.
    destruct (helm ["repo"; "update"]) as [[out|err]|];
      (split; [intros H; first [reflexivity|discriminate H]|]);
      (split; [intros H Hw; first [do 2 eexists; reflexivity|exfalso; apply H; reflexivity]|]);
      (split; [discriminate|returned_delivers]).
  - unfold run_loadRepos.
    destruct (helm ["repo"; "list"; "-o"; "json"]) as [[out|err]|];
      [destruct (0 <? Z.of_nat (String.length out));
       [destruct (unmarshalRepos out)|]| |];
      (split; [intros H; first [reflexivity|discriminate H]|]);
      (split; [intros H Hw; first [do 2 eexists; reflexivity|exfalso; apply H; reflexivity]|]);
      (split; [discriminate|returned_delivers]).
  - unfold run_loadCharts.
    destruct (helm ["search"; "repo"; n ++ "/"; "-o"; "json"]) as [[out|err]|];
      [destruct (0 <? Z.of_nat (String.length out));
       [destruct (unmarshalCharts out)|]| |];
      (split; [intros H; first [reflexivity|discriminate H]|]);
      (split; [intros H Hw; first [do 2 eexists; reflexivity|exfalso; apply H; reflexivity]|]);
      (split; [discriminate|returned_delivers]).
  - unfold run_loadVersions.
    destruct (helm ["search"; "repo"; n; "--versions"; "-o"; "json"]) as [[out|err]|];
      [destruct (0 <? Z.of_nat (String.length out));
       [destruct (unmarshalVersions out)|]| |];
      (split; [intros H; first [reflexivity|discriminate H]|]);
      (split; [intros H Hw; first [do 2 eexists; reflexivity|exfalso; apply H; reflexivity]|]);
      (split; [discriminate|returned_delivers]).
  - destruct (valuesFilename_some n v (Hlen n v eq_refl)) as [name Hf].
    unfold run_downloadValues.
    destruct (helm ["show"; "values"; n; "--version"; v]) as [[values|err]|].
    + rewrite Hf. destruct (writeFile name values) as [|err remains|] eqn:Hwr.
      * split; [intros H; discriminate H|].
        split; [intros _ _; do 2 eexists; reflexivity|].
        split; [discriminate|].
        intros msg files H. injection H as <- <-. cbn [delivers].
        rewrite Hf. apply String.eqb_refl.
      * split; [intros H; discriminate H|].
        split; [intros _ _; do 2 eexists; reflexivity|].
        split; [discriminate|returned_delivers].
      * split; [intros H; discriminate H|].
        split; [intros _ Hw; exfalso; exact (Hw name values Hwr)|].
        split; [discriminate|returned_delivers].
    + split; [intros H; discriminate H|].
      split; [intros _ _; do 2 eexists; reflexivity|].
      split; [discriminate|returned_delivers].
    + split; [reflexivity|].
      split; [intros H; exfalso; apply H; reflexivity|].
      split; [discriminate|returned_delivers].
Qed.

Lemma exec_delivers_witness :
  exec (fun _ => None) (fun _ => inl []) (fun _ => inl [])
       (fun _ => inl []) (fun _ _ => WriteOk) (loadCharts "argo") = Blocked /\
  delivers (loadCharts "argo") (errorMsg "Failed to search charts: exit status 1")
    = true.
Proof.
  assert (Hq : loadCharts "argo" <> Quit) by discriminate.
  assert (Hl : forall n v : string,
             loadCharts "argo" = downloadValues n v ->
             Z.of_nat (String.length n) < max_int)
    by (intros n v H; discriminate H).
  split.
  - exact (proj1 (exec_delivers (fun _ => None) (fun _ => inl []) (fun _ => inl [])
                    (fun _ => inl []) (fun _ _ => WriteOk) (loadCharts "argo")
                    Hq Hl) eq_refl).
  - exact (proj2 (proj2 (proj2
             (exec_delivers (fun _ => Some (inr "exit status 1")) (fun _ => inl [])
                (fun _ => inl []) (fun _ => inl []) (fun _ _ => WriteOk)
                (loadCharts "argo") Hq Hl)))
             (errorMsg "Failed to search charts: exit status 1") [] eq_refl).
Defined.



(** ** Sessions without keys during a fetch *)

Lemma keyEnter_selectAt (m : model) :
  listScreen (m_state m) = true ->
  keyEnter m =
  if 0 <? displayedLen m then selectAt m (cursor m) else Some (m, None).
Proof.
  intros H. unfold keyEnter, displayedLen, selectAt.
  destruct (m_state m); try discriminate H; reflexivity.
Qed.

Lemma numberShortcut_selectAt (m : model) (num : Z) :
  listScreen (m_state m) = true -> 1 <= num <= 10 ->
  0 <= cursor m <= slice_max ->
  numberShortcut m num =
  if getPageStart m + num - 1 <? displayedLen m
  then selectAt m (getPageStart m + num - 1) else Some (m, None).
Proof.
  intros H Hn Hc. unfold numberShortcut, displayedLen, selectAt.
  rewrite numberShortcut_index by assumption.
  destruct (m_state m); try discriminate H; reflexivity.
Qed.

Lemma keyDefault_cases (m : model) (k : string) :
  keyDefault m k = Some (m, None) \/
  keyDefault m k = Some (m, Some Quit) \/
  exists num, 1 <= num <= 10 /\ keyDefault m k = numberShortcut m num.
Proof.
  unfold keyDefault.
  destruct (state_eqb (m_state m) stateComplete); [auto|].
  destruct (String.length k =? 1)%nat; [|auto].
  destruct (Atoi k) as [num|]; [|auto].
  destruct (Z.leb_spec 1 num); cbn [andb]; [|auto].
  unfold pageSize. destruct (Z.leb_spec num 10); [|auto].
  right. right. exists num. split; [lia|reflexivity].
Qed.

Lemma valid_cursor_bounds {A : Type} (l : list A) (c : Z) :
  valid_cursor l c -> len l <= slice_max -> 0 <= c <= slice_max.
Proof.
  unfold valid_cursor, slice_max. intros [[-> ->]|H] Hl; [cbn; lia|lia].
Qed.

Lemma valid_cursor_in_range {A : Type} (l : list A) (c : Z) :
  valid_cursor l c -> 0 < len l -> 0 <= c < len l.
Proof.
  unfold valid_cursor. intros [[-> ->]|H] Hl; [cbn in Hl; lia|exact H].
Qed.

(** Selecting an item of the displayed sequence while nothing is in
    flight keeps the invariant, with the one fetch it issues. *)
Lemma Inv_selectAt (m : model) (i : Z) :
  Inv (mkSys m []) -> listScreen (m_state m) = true ->
  0 <= i < displayedLen m ->
  exists m' c,
    selectAt m i = Some (m', Some c) /\ Inv (mkSys m' [c]) /\ c <> Quit.
Proof.
  intros [Hsz [Hld Hst]] Hls Hi. cbn [mdl inflight] in *.
  unfold selectAt, displayedLen in *.
  destruct (m_state m) eqn:Hs; try discriminate Hls.
  - destruct Hst as [_ [Hcur [Hch Hvs]]].
    destruct (index_Some (repos m) i Hi) as [r [Hr _]].
    unfold selectRepo.
    cbn [repos selectedRepo set_state set_loading set_cursor set_selectedRepo].
    rewrite Hr. do 2 eexists. split; [reflexivity|]. split; [|discriminate].
    split; [exact Hsz|]. split; [reflexivity|]. cbn.
    split; [exact Hvs|]. exists r. split; [exact Hr|]. left. auto.
  - destruct Hst as [Hvs [r [Hr Hrest]]].
    destruct (index_Some (charts m) i Hi) as [c [Hc _]].
    unfold selectChart.
    cbn [charts selectedChart set_state set_loading set_cursor set_selectedChart].
    rewrite Hc. do 2 eexists. split; [reflexivity|]. split; [|discriminate].
    split; [exact Hsz|]. split; [reflexivity|]. cbn.
    split; [exists r; exact Hr|]. exists c. split; [exact Hc|]. left. auto.
  - destruct (index_Some (versions m) i Hi) as [v [Hv _]].
    unfold selectVersion.
    cbn [versions selectedVersion set_state set_loading set_selectedVersion].
    rewrite Hv. do 2 eexists. split; [reflexivity|]. split; [|discriminate].
    split; [exact Hsz|]. split; [reflexivity|]. cbn.
    exists v. split; [exact Hv|reflexivity].
Qed.

(** The cursor of an idle list screen is fit for the displayed sequence. *)
Lemma Inv_idle_cursor (m : model) :
  Inv (mkSys m []) -> listScreen (m_state m) = true ->
  ((displayedLen m = 0 /\ cursor m = 0) \/ 0 <= cursor m < displayedLen m) /\
  displayedLen m <= slice_max.
Proof.
  intros [[Hs1 [Hs2 Hs3]] [_ Hst]] Hls. cbn [mdl inflight] in *.
  unfold displayedLen.
  destruct (m_state m); try discriminate Hls; (split; [|assumption]).
  - destruct Hst as [_ [[[He Hc]|Hc] _]]; [rewrite He; left; auto|auto].
  - destruct Hst as [_ [r [_ [[H _]|[_ [[He Hc]|Hc]]]]]];
      [discriminate H|rewrite He; left; auto|auto].
  - destruct Hst as [_ [c [_ [[H _]|[_ [[He Hc]|Hc]]]]]];
      [discriminate H|rewrite He; left; auto|auto].
Qed.

(** Moving the cursor to another fit position keeps the invariant. *)
Lemma Inv_set_cursor (m : model) (c : Z) :
  Inv (mkSys m []) -> listScreen (m_state m) = true ->
  ((displayedLen m = 0 /\ c = 0) \/ 0 <= c < displayedLen m) ->
  Inv (mkSys (set_cursor c m) []).
Proof.
  intros [Hsz [Hld Hst]] Hls Hc. cbn [mdl inflight] in *.
  split; [exact Hsz|]. split; [exact Hld|]. cbn [mdl inflight m_state set_cursor].
  unfold displayedLen in Hc.
  assert (Hv : forall (A : Type) (l : list A),
             (len l = 0 /\ c = 0) \/ 0 <= c < len l -> valid_cursor l c).
  { intros A l [[H0 Hc0]|H]; [left; split; [apply len_zero_nil|]; assumption|right; exact H]. }
  destruct (m_state m); try discriminate Hls; cbn.
  - destruct Hst as [H1 [_ H2]]. split; [exact H1|]. split; [apply Hv; exact Hc|exact H2].
  - destruct Hst as [H1 [r [Hr [[H _]|[H2 _]]]]]; [discriminate H|].
    split; [exact H1|]. exists r. split; [exact Hr|]. right. split; [exact H2|apply Hv; exact Hc].
  - destruct Hst as [H1 [ch [Hr [[H _]|[H2 _]]]]]; [discriminate H|].
    split; [exact H1|]. exists ch. split; [exact Hr|]. right. split; [exact H2|apply Hv; exact Hc].
Qed.

Lemma valid_cursor_zero {A : Type} (l : list A) : valid_cursor l 0.
Proof.
  destruct l; [left; auto|right]. unfold len. cbn [List.length]. lia.
Qed.

(** A key pressed while nothing is in flight: [Update] does not panic,
    and unless it quits the invariant holds afterwards. *)
Lemma Inv_key (m : model) (k : string) :
  Inv (mkSys m []) ->
  exists m' c,
    Update m (KeyMsg k) = Some (m', c) /\
    (c = Some Quit \/ exists cs, issue c [] = Some cs /\ Inv (mkSys m' cs)).
Proof.
  intros HI.
  assert (Hsame : exists m' c, Some (m, @None Cmd) = Some (m', c) /\
            (c = Some Quit \/ exists cs, issue c [] = Some cs /\ Inv (mkSys m' cs))).
  { exists m, None. split; [reflexivity|]. right. exists []. split; [reflexivity|exact HI]. }
  assert (Hquit : exists m' c, Some (m, Some Quit) = Some (m', c) /\
            (c = Some Quit \/ exists cs, issue c [] = Some cs /\ Inv (mkSys m' cs))).
  { exists m, (Some Quit). split; [reflexivity|left; reflexivity]. }
  assert (Hsel : forall i, listScreen (m_state m) = true -> 0 <= i < displayedLen m ->
            exists m' c, selectAt m i = Some (m', c) /\
            (c = Some Quit \/ exists cs, issue c [] = Some cs /\ Inv (mkSys m' cs))).
  { intros i Hls Hi. destruct (Inv_selectAt m i HI Hls Hi) as [m' [c [Hs [HI' Hq]]]].
    exists m', (Some c). split; [exact Hs|]. right. exists [c].
    split; [destruct c; try reflexivity; congruence|exact HI']. }
  assert (Hmove : forall c, listScreen (m_state m) = true ->
            ((displayedLen m = 0 /\ c = 0) \/ 0 <= c < displayedLen m) ->
            exists m' c', Some (set_cursor c m, @None Cmd) = Some (m', c') /\
            (c' = Some Quit \/ exists cs, issue c' [] = Some cs /\ Inv (mkSys m' cs))).
  { intros c Hls Hc. exists (set_cursor c m), None. split; [reflexivity|]. right.
    exists []. split; [reflexivity|]. apply Inv_set_cursor; assumption. }
  destruct (quitKey k) eqn:Hq; [rewrite (Update_quitKey m k Hq); exact Hquit|].
  destruct (upKey k) eqn:Hu.
  { rewrite (Update_upKey m k Hu), keyUp_moves.
    destruct (listScreen (m_state m)) eqn:Hls; cbn [andb]; [|exact Hsame].
    destruct (Z.ltb_spec 0 (cursor m)); [|exact Hsame].
    destruct (Inv_idle_cursor m HI Hls) as [Hc Hmax].
    rewrite sub_exact by (unfold in_range, min_int, max_int, slice_max in *; lia).
    apply Hmove; [reflexivity|lia]. }
  destruct (downKey k) eqn:Hd.
  { rewrite (Update_downKey m k Hd), keyDown_moves.
    destruct (listScreen (m_state m)) eqn:Hls; cbn [andb]; [|exact Hsame].
    destruct (Inv_idle_cursor m HI Hls) as [Hc Hmax].
    rewrite sub_exact by (unfold in_range, min_int, max_int, slice_max in *; lia).
    destruct (Z.ltb_spec (cursor m) (displayedLen m - 1)); [|exact Hsame].
    rewrite add_exact by (unfold in_range, min_int, max_int, slice_max in *; lia).
    apply Hmove; [reflexivity|lia]. }
  destruct (selectKey k) eqn:Hs.
  { rewrite (Update_selectKey m k Hs).
    destruct (listScreen (m_state m)) eqn:Hls.
    - rewrite (keyEnter_selectAt m Hls).
      destruct (Z.ltb_spec 0 (displayedLen m)); [|exact Hsame].
      destruct (Inv_idle_cursor m HI Hls) as [Hc Hmax].
      apply Hsel; [reflexivity|lia].
    - unfold keyEnter. destruct (m_state m); try discriminate Hls;
        (exact Hsame || exact Hquit). }
  destruct (backKey k) eqn:Hb.
  { rewrite (Update_backKey m k Hb). unfold keyBack.
    destruct HI as [[Hs1 [Hs2 Hs3]] [Hld Hst]]. cbn [mdl inflight] in *.
    destruct (m_state m) eqn:Hstate;
      try (exact Hsame); try (exact Hquit).
    - destruct Hst as [Hvs [r [Hr _]]]. apply index_Some_bounds in Hr.
      do 2 eexists. split; [reflexivity|]. right. exists []. split; [reflexivity|].
      split; [split; [exact Hs1|split; [unfold slice_max; cbn; lia|exact Hs3]]|].
      split; [exact Hld|]. cbn [mdl inflight m_state set_state set_cursor set_charts].
      split; [reflexivity|].
      split; [right; exact Hr|]. split; [reflexivity|exact Hvs].
    - destruct Hst as [[r Hr] [c [Hc _]]]. apply index_Some_bounds in Hc.
      do 2 eexists. split; [reflexivity|]. right. exists []. split; [reflexivity|].
      split; [split; [exact Hs1|split; [exact Hs2|unfold slice_max; cbn; lia]]|].
      split; [exact Hld|]. cbn [mdl inflight m_state set_state set_cursor set_versions].
      split; [reflexivity|].
      exists r. split; [exact Hr|]. right. split; [reflexivity|right; exact Hc]. }
  rewrite (Update_otherKey m k Hq Hu Hd Hs Hb).
  destruct (keyDefault_cases m k) as [H|[H|[num [Hn H]]]]; rewrite H;
    [exact Hsame|exact Hquit|].
  destruct (listScreen (m_state m)) eqn:Hls.
  - destruct (Inv_idle_cursor m HI Hls) as [Hc Hmax].
    assert (Hc' : 0 <= cursor m <= slice_max) by lia.
    assert (Hc1 : 0 <= cursor m <= max_int) by (unfold slice_max, max_int in *; lia).
    pose proof (getPageStart_bounds m Hc1) as Hp.
    rewrite (numberShortcut_selectAt m num Hls Hn Hc').
    destruct (Z.ltb_spec (getPageStart m + num - 1) (displayedLen m)); [|exact Hsame].
    apply Hsel; [reflexivity|lia].
  - unfold numberShortcut. destruct (m_state m); try discriminate Hls; exact Hsame.
Qed.

(** The result of the one command in flight: [Update] applies it and the
    invariant holds afterwards. *)
Lemma Inv_deliver (s : sys) (i : nat) (c : Cmd) (msg : Msg) :
  Inv s -> nth_error (inflight s) i = Some c ->
  delivers c msg = true -> wf_msg msg = true ->
  exists m' c' cs,
    Update (mdl s) msg = Some (m', c') /\
    issue c' (remove_nth i (inflight s)) = Some cs /\
    Inv (mkSys m' cs).
Proof.
  destruct s as [m fl]. intros [[Hs1 [Hs2 Hs3]] [Hld Hst]] Hn Hd Hwf.
  cbn [mdl inflight] in *.
  assert (Herr : forall text,
             fl = [c] -> i = 0%nat ->
             exists m' c' cs,
               Update m (errorMsg text) = Some (m', c') /\
               issue c' (remove_nth i fl) = Some cs /\ Inv (mkSys m' cs)).
  { intros text -> ->. do 3 eexists. split; [reflexivity|].
    split; [reflexivity|]. split; [repeat split; assumption|].
    split; reflexivity. }
  assert (Hone : forall c0, fl = [c0] -> i = 0%nat /\ c0 = c).
  { intros c0 ->. destruct i as [|[|i]]; cbn in Hn; try discriminate.
    split; [reflexivity|congruence]. }
  destruct (m_state m) eqn:Hstate.
  - (* stateRepoUpdate *)
    destruct Hst as [[Hfl|Hfl] [Hch Hvs]]; destruct (Hone _ Hfl) as [-> <-];
      destruct msg; try discriminate Hd; try (apply Herr; [exact Hfl|reflexivity]);
      subst fl.
    + do 3 eexists. split; [reflexivity|]. split; [reflexivity|].
      split; [repeat split; assumption|]. split; [reflexivity|].
      cbn. rewrite Hstate. auto.
    + cbn [wf_msg] in Hwf. apply Z.leb_le in Hwf.
      do 3 eexists. split; [reflexivity|]. split; [reflexivity|].
      split; [repeat split; assumption|]. split; [reflexivity|].
      cbn. split; [reflexivity|]. split; [apply valid_cursor_zero|auto].
  - (* stateRepoList *)
    destruct Hst as [Hfl _]. subst fl. destruct i; discriminate Hn.
  - (* stateChartList *)
    destruct Hst as [Hvs [r [Hr [[Hfl [Hch Hc]]|[Hfl _]]]]].
    + destruct (Hone _ Hfl) as [-> <-].
      destruct msg; try discriminate Hd; try (apply Herr; [exact Hfl|reflexivity]).
      subst fl. cbn [wf_msg] in Hwf. apply Z.leb_le in Hwf.
      do 3 eexists. split; [reflexivity|]. split; [reflexivity|].
      split; [repeat split; assumption|]. split; [reflexivity|].
      cbn. rewrite Hstate. split; [exact Hvs|]. exists r. split; [exact Hr|].
      right. split; [reflexivity|apply valid_cursor_zero].
    + subst fl. destruct i; discriminate Hn.
  - (* stateVersionList *)
    destruct Hst as [[r Hr] [ch [Hch [[Hfl [Hvs Hc]]|[Hfl _]]]]].
    + destruct (Hone _ Hfl) as [-> <-].
      destruct msg; try discriminate Hd; try (apply Herr; [exact Hfl|reflexivity]).
      subst fl. cbn [wf_msg] in Hwf. apply Z.leb_le in Hwf.
      do 3 eexists. split; [reflexivity|]. split; [reflexivity|].
      split; [repeat split; assumption|]. split; [reflexivity|].
      cbn. rewrite Hstate. split; [exists r; exact Hr|]. exists ch.
      split; [exact Hch|]. right. split; [reflexivity|apply valid_cursor_zero].
    + subst fl. destruct i; discriminate Hn.
  - (* stateDownload *)
    destruct Hst as [v [Hv Hfl]]. destruct (Hone _ Hfl) as [-> <-].
    destruct msg; try discriminate Hd; try (apply Herr; [exact Hfl|reflexivity]).
    subst fl. do 3 eexists. split; [reflexivity|]. split; [reflexivity|].
    split; [repeat split; assumption|]. split; reflexivity.
  - subst fl. destruct i; discriminate Hn.
  - subst fl. destruct i; discriminate Hn.
Qed.

Lemma Inv_start : Inv start.
Proof.
  split; [repeat split; vm_compute; discriminate|].
  split; [reflexivity|]. cbn. auto.
Qed.

Lemma idle_nil (s : sys) : idle s = true -> s = mkSys (mdl s) [].
Proof. destruct s as [m [|c fl]]; [reflexivity|discriminate]. Qed.

Lemma Inv_step (s s' : sys) (e : event) :
  Inv s -> calm s e = true -> step s e = Some s' -> Inv s'.
Proof.
  intros HI Hc Hs. destruct e as [k|i msg]; cbn [calm step] in *.
  - pose proof (idle_nil s Hc) as Hnil. rewrite Hnil in HI.
    destruct (Inv_key (mdl s) k HI) as [m' [c [Hu Hres]]].
    rewrite Hu in Hs. rewrite Hnil in Hs. cbn [inflight] in Hs.
    destruct Hres as [->|[cs [Hi HI']]].
    + discriminate Hs.
    + rewrite Hi in Hs. injection Hs as <-. exact HI'.
  - destruct (nth_error (inflight s) i) as [c|] eqn:Hn; [|discriminate].
    destruct (delivers c msg) eqn:Hd; [|discriminate].
    destruct (Inv_deliver s i c msg HI Hn Hd Hc) as [m' [c' [cs [Hu [Hi HI']]]]].
    rewrite Hu, Hi in Hs. injection Hs as <-. exact HI'.
Qed.

Lemma Inv_calm_run (es : list event) :
  forall s s' : sys, Inv s -> calm_run s es = Some s' -> Inv s'.
Proof.
  induction es as [|e es IH]; intros s s' HI Hr; cbn [calm_run] in Hr.
  - injection Hr as <-. exact HI.
  - destruct (calm s e) eqn:Hc; [|discriminate].
    destruct (step s e) as [s1|] eqn:Hs; [|discriminate].
    apply (IH s1 s'); [apply (Inv_step s s1 e)|]; assumption.
Qed.

Lemma calm_run_is_run (es : list event) :
  forall s s' : sys, calm_run s es = Some s' -> run s es = Some s'.
Proof.
  induction es as [|e es IH]; intros s s' Hr; cbn [calm_run run] in *;
    [exact Hr|].
  destruct (calm s e); [|discriminate].
  destruct (step s e) as [s1|]; [|discriminate]. apply IH. exact Hr.
Qed.

Lemma Inv_facts (s : sys) :
  Inv s ->
  (List.length (inflight s) <= 1)%nat /\
  loading (mdl s) = negb (idle s) /\
  (listScreen (m_state (mdl s)) = true ->
   (displayedLen (mdl s) = 0 /\ cursor (mdl s) = 0) \/
   0 <= cursor (mdl s) < displayedLen (mdl s)) /\
  (m_state (mdl s) = stateComplete \/ m_state (mdl s) = stateError ->
   inflight s = []).
Proof.
  intros HI.
  destruct s as [m fl]. destruct HI as [Hsz [Hld Hst]]. cbn [mdl inflight] in *.
  split; [|split; [exact Hld|split]].
  - destruct (m_state m).
    + destruct Hst as [[->| ->] _]; cbn; lia.
    + destruct Hst as [-> _]; cbn; lia.
    + destruct Hst as [_ [r [_ [[-> _]|[-> _]]]]]; cbn; lia.
    + destruct Hst as [_ [c [_ [[-> _]|[-> _]]]]]; cbn; lia.
    + destruct Hst as [v [_ ->]]; cbn; lia.
    + rewrite Hst; cbn; lia.
    + rewrite Hst; cbn; lia.
  - intros Hls. unfold displayedLen.
    assert (Hv : forall (A : Type) (l : list A) (c : Z),
               valid_cursor l c -> (len l = 0 /\ c = 0) \/ 0 <= c < len l).
    { intros A l c [[-> ->]|H]; [left; split; reflexivity|right; exact H]. }
    destruct (m_state m); try discriminate Hls.
    + destruct Hst as [_ [Hc _]]. apply Hv. exact Hc.
    + destruct Hst as [_ [r [_ [[_ [-> ->]]|[_ Hc]]]]];
        [left; split; reflexivity|apply Hv; exact Hc].
    + destruct Hst as [_ [c [_ [[_ [-> ->]]|[_ Hc]]]]];
        [left; split; reflexivity|apply Hv; exact Hc].
  - intros [H|H]; rewrite H in Hst; exact Hst.
Qed.


(** In a session where keys are pressed only while nothing is in flight
    (from the start of the program, any number of events): at most one
    command is in flight; the loading flag is set exactly while one is; on
    a list screen the cursor is inside the displayed sequence, or 0 when
    that is empty; and on the Complete and Failed screens nothing is in
    flight. *)
Theorem calm_session_invariants (es : list event) (s : sys) :
  calm_run start es = Some s ->
  (List.length (inflight s) <= 1)%nat /\
  loading (mdl s) = negb (idle s) /\
  (listScreen (m_state (mdl s)) = true ->
   (displayedLen (mdl s) = 0 /\ cursor (mdl s) = 0) \/
   0 <= cursor (mdl s) < displayedLen (mdl s)) /\
  (m_state (mdl s) = stateComplete \/ m_state (mdl s) = stateError ->
   inflight s = []).
Proof.
  intros Hr. apply Inv_facts. exact (Inv_calm_run es start s Inv_start Hr).
Qed.

Lemma calm_session_invariants_witness :
  exists s,
    calm_run start calmSession = Some s /\
    m_state (mdl s) = stateVersionList /\
    List.length (inflight s) = 1%nat /\ loading (mdl s) = true /\
    cursor (mdl s) = 0.
Proof.
  destruct (calm_session_invariants calmSession _ ltac:(vm_compute; reflexivity))
    as [_ [Hl _]].
  eexists. split; [vm_compute; reflexivity|].
  split; [reflexivity|]. split; [reflexivity|]. split; [exact Hl|reflexivity].
Defined.

Lemma Inv_fetch_target (s : sys) :
  Inv s ->
  (m_state (mdl s) = stateChartList ->
   exists r,
     index (repos (mdl s)) (selectedRepo (mdl s)) = Some r /\
     (inflight s = [] \/ inflight s = [loadCharts (repo_Name r)])) /\
  (m_state (mdl s) = stateVersionList ->
   (exists r, index (repos (mdl s)) (selectedRepo (mdl s)) = Some r) /\
   exists c,
     index (charts (mdl s)) (selectedChart (mdl s)) = Some c /\
     (inflight s = [] \/ inflight s = [loadVersions (chart_Name c)])) /\
  (m_state (mdl s) = stateDownload ->
   exists v,
     index (versions (mdl s)) (selectedVersion (mdl s)) = Some v /\
     inflight s = [downloadValues (version_Name v) (version_Version v)]).
Proof.
  intros HI.
  destruct s as [m fl]. destruct HI as [_ [_ Hst]]. cbn [mdl inflight] in *.
  split; [|split]; intros Hs; rewrite Hs in Hst.
  - destruct Hst as [_ [r [Hr' [[H _]|[H _]]]]]; exists r; auto.
  - destruct Hst as [Hrepo [c [Hc [[H _]|[H _]]]]]; (split; [exact Hrepo|]);
      exists c; auto.
  - exact Hst.
Qed.


(** In such a session the recorded selections index existing items and
    the command in flight is the fetch for the recorded selection: the
    charts of the selected repository on a loading PackageList, the
    versions of the selected chart on a loading VersionList, the values of
    the selected version on the Fetching screen. *)
Theorem calm_session_fetch_target (es : list event) (s : sys) :
  calm_run start es = Some s ->
  (m_state (mdl s) = stateChartList ->
   exists r,
     index (repos (mdl s)) (selectedRepo (mdl s)) = Some r /\
     (inflight s = [] \/ inflight s = [loadCharts (repo_Name r)])) /\
  (m_state (mdl s) = stateVersionList ->
   (exists r, index (repos (mdl s)) (selectedRepo (mdl s)) = Some r) /\
   exists c,
     index (charts (mdl s)) (selectedChart (mdl s)) = Some c /\
     (inflight s = [] \/ inflight s = [loadVersions (chart_Name c)])) /\
  (m_state (mdl s) = stateDownload ->
   exists v,
     index (versions (mdl s)) (selectedVersion (mdl s)) = Some v /\
     inflight s = [downloadValues (version_Name v) (version_Version v)]).
Proof.
  intros Hr. apply Inv_fetch_target. exact (Inv_calm_run es start s Inv_start Hr).
Qed.

Lemma calm_session_fetch_target_witness :
  exists s,
    calm_run start calmSession = Some s /\
    inflight s = [loadVersions "stable/redis"].
Proof.
  destruct (calm_session_fetch_target calmSession _ ltac:(vm_compute; reflexivity))
    as [_ [H _]].
  eexists. split; [vm_compute; reflexivity|].
  destruct (H eq_refl) as [_ [c [Hc [Hi|Hi]]]]; [discriminate Hi|].
  cbn [inflight]. reflexivity.
Defined.

Lemma View_of_rows (m : model) :
  sizes_ok m -> 0 <= cursor m <= slice_max ->
  (m_state m = stateChartList \/ m_state m = stateVersionList ->
   exists r, index (repos m) (selectedRepo m) = Some r) ->
  (m_state m = stateVersionList ->
   exists c, index (charts m) (selectedChart m) = Some c) ->
  exists f, View m = Some f.
Proof.
  intros [H1 [H2 H3]] Hc Hrepo Hchart. unfold View, viewBody.
  destruct (m_state m) eqn:Hs; try (eexists; reflexivity).
  - destruct (loading m); [eexists; reflexivity|].
    destruct (viewRows_some m (repos m) Hc H1) as [rows [-> _]].
    eexists; reflexivity.
  - destruct (loading m); [eexists; reflexivity|].
    destruct Hrepo as [r ->]; [auto|].
    destruct (viewRows_some m (charts m) Hc H2) as [rows [-> _]].
    eexists; reflexivity.
  - destruct (loading m); [eexists; reflexivity|].
    destruct Hchart as [c ->]; [reflexivity|].
    destruct Hrepo as [r ->]; [auto|].
    destruct (viewRows_some m (versions m) Hc H3) as [rows [-> _]].
    eexists; reflexivity.
Qed.

(** In such a session neither [Update] nor [View] panics: every frame
    renders, and every key pressed while nothing is in flight is handled. *)
Theorem calm_session_no_panic (es : list event) (s : sys) :
  calm_run start es = Some s ->
  (exists f, View (mdl s) = Some f) /\
  (idle s = true ->
   forall k : string, exists m' c, Update (mdl s) (KeyMsg k) = Some (m', c)).
Proof.
  intros Hr. pose proof (Inv_calm_run es start s Inv_start Hr) as HI. split.
  - destruct (Inv_fetch_target s HI) as [Hch [Hvs _]].
    destruct (Inv_facts s HI) as [_ [Hld [Hcur _]]].
    destruct HI as [Hsz _].
    destruct (listScreen (m_state (mdl s))) eqn:Hls.
    + apply View_of_rows.
      * exact Hsz.
      * destruct Hsz as [H1 [H2 H3]]. specialize (Hcur eq_refl).
        assert (displayedLen (mdl s) <= slice_max)
          by (unfold displayedLen; destruct (m_state (mdl s)); try discriminate Hls; assumption).
        unfold slice_max in *. lia.
      * intros [H|H]; [destruct (Hch H) as [r [Hr' _]]|destruct (Hvs H) as [[r Hr'] _]];
          exists r; exact Hr'.
      * intros H. destruct (Hvs H) as [_ [c [Hc _]]]. exists c; exact Hc.
    + unfold View, viewBody.
      destruct (m_state (mdl s)); try discriminate Hls; eexists; reflexivity.
  - intros Hi k. rewrite (idle_nil s Hi) in HI.
    destruct (Inv_key (mdl s) k HI) as [m' [c [Hu _]]]. eauto.
Qed.

Lemma calm_session_no_panic_witness :
  exists s f m' c,
    calm_run start (firstn 5 calmSession) = Some s /\
    View (mdl s) = Some f /\ Update (mdl s) (KeyMsg "enter") = Some (m', c).
Proof.
  destruct (calm_session_no_panic (firstn 5 calmSession) _
              ltac:(vm_compute; reflexivity)) as [[f Hf] Hk].
  destruct (Hk eq_refl "enter") as [m' [c Hu]].
  eexists. exists f, m', c.
  split; [vm_compute; reflexivity|]. split; [exact Hf|exact Hu].
Defined.


(** ** The frame *)

Lemma nth_error_map_inv {A B : Type} (f : A -> B) (l : list A) (k : nat) (y : B) :
  nth_error (map f l) k = Some y ->
  exists x, nth_error l k = Some x /\ y = f x.
Proof.
  revert k. induction l as [|a l IH]; intros [|k] H; cbn in H; try discriminate.
  - injection H as <-. exists a. split; reflexivity.
  - apply IH. exact H.
Qed.

(** Whenever [View] renders a table, its [k]-th line carries the number
    [pageStart + k + 1] (the position in the whole sequence, counted from
    1), is marked exactly when [pageStart + k] is the cursor, and carries
    the LATEST badge exactly when it is line number 1 of the version
    table; no table has more than 10 lines. *)
Theorem View_lines (m : model) (b : body) (h : help) :
  sizes_ok m -> 0 <= cursor m <= slice_max ->
  View m = Some (b, h) ->
  (List.length (body_lines b) <= 10)%nat /\
  forall (k : nat) (l : line),
    nth_error (body_lines b) k = Some l ->
    line_number l = getPageStart m + Z.of_nat k + 1 /\
    line_selected l = (getPageStart m + Z.of_nat k =? cursor m) /\
    line_latest l =
      (state_eqb (m_state m) stateVersionList && (line_number l =? 1)).
Proof.
  intros [H1 [H2 H3]] Hc Hv.
  assert (Hc1 : 0 <= cursor m <= max_int) by (unfold slice_max, max_int in *; lia).
  pose proof (getPageStart_bounds m Hc1) as Hp.
  assert (Hnum : forall k : nat, (k < 10)%nat ->
             rowNumber (getPageStart m + Z.of_nat k) = getPageStart m + Z.of_nat k + 1).
  { intros k Hk. unfold rowNumber. apply add_exact.
    unfold in_range, min_int, max_int, slice_max in *. lia. }
  assert (Hrows : forall (A : Type) (l : list A) (rows : list (row A)),
             len l <= slice_max -> viewRows m l = Some rows ->
             (List.length rows <= 10)%nat /\
             forall (k : nat) (r : row A),
               nth_error rows k = Some r ->
               (k < 10)%nat /\ row_index r = getPageStart m + Z.of_nat k /\
               row_selected r = (getPageStart m + Z.of_nat k =? cursor m)).
  { intros A l rows Hl Hr.
    destruct (viewRows_facts m l rows Hc Hl Hr) as [Hlen Hn].
    assert (Hle : (List.length rows <= 10)%nat) by lia.
    split; [exact Hle|]. intros k r Hk.
    destruct (Hn k r Hk) as [Hi [_ Hs]].
    assert (k < List.length rows)%nat by (apply nth_error_Some; congruence).
    split; [lia|]. split; [exact Hi|]. rewrite Hs, Hi. reflexivity. }
  unfold View in Hv. destruct (viewBody m) as [b'|] eqn:Hb; [|discriminate].
  injection Hv as <- _. unfold viewBody in Hb.
  destruct (m_state m) eqn:Hs; cbn [state_eqb andb];
    try (injection Hb as <-; cbn [body_lines List.length];
         split; [lia|intros [|k] l Hk; discriminate Hk]).
  - destruct (loading m);
      [injection Hb as <-; cbn [body_lines List.length];
       split; [lia|intros [|k] l Hk; discriminate Hk]|].
    destruct (viewRows m (repos m)) as [rows|] eqn:Hr; [|discriminate].
    injection Hb as <-. cbn [body_lines].
    destruct (Hrows _ _ rows H1 Hr) as [Hle Hn].
    split; [rewrite length_map; exact Hle|]. intros k l Hk.
    destruct (nth_error_map_inv _ _ _ _ Hk) as [r [Hk' ->]].
    destruct (Hn k r Hk') as [Hk10 [Hi Hsel]].
    cbn [repoLine line_number line_selected line_latest].
    rewrite Hi, (Hnum k Hk10). auto.
  - destruct (loading m);
      [injection Hb as <-; cbn [body_lines List.length];
       split; [lia|intros [|k] l Hk; discriminate Hk]|].
    destruct (index (repos m) (selectedRepo m)) as [rp|]; [|discriminate].
    destruct (viewRows m (charts m)) as [rows|] eqn:Hr; [|discriminate].
    injection Hb as <-. cbn [body_lines].
    destruct (Hrows _ _ rows H2 Hr) as [Hle Hn].
    split; [rewrite length_map; exact Hle|]. intros k l Hk.
    destruct (nth_error_map_inv _ _ _ _ Hk) as [r [Hk' ->]].
    destruct (Hn k r Hk') as [Hk10 [Hi Hsel]].
    cbn [chartLine line_number line_selected line_latest].
    rewrite Hi, (Hnum k Hk10). auto.
  - destruct (loading m);
      [injection Hb as <-; cbn [body_lines List.length];
       split; [lia|intros [|k] l Hk; discriminate Hk]|].
    destruct (index (charts m) (selectedChart m)) as [ch|]; [|discriminate].
    destruct (index (repos m) (selectedRepo m)) as [rp|]; [|discriminate].
    destruct (viewRows m (versions m)) as [rows|] eqn:Hr; [|discriminate].
    injection Hb as <-. cbn [body_lines].
    destruct (Hrows _ _ rows H3 Hr) as [Hle Hn].
    split; [rewrite length_map; exact Hle|]. intros k l Hk.
    destruct (nth_error_map_inv _ _ _ _ Hk) as [r [Hk' ->]].
    destruct (Hn k r Hk') as [Hk10 [Hi Hsel]].
    cbn [versionLine line_number line_selected line_latest].
    rewrite Hi, (Hnum k Hk10). split; [reflexivity|]. split; [exact Hsel|].
    destruct (Z.eqb_spec (getPageStart m + Z.of_nat k) 0);
      destruct (Z.eqb_spec (getPageStart m + Z.of_nat k + 1) 1);
      try reflexivity; lia.
Qed.

Lemma View_lines_witness :
  exists b h l,
    View scenarioC = Some (b, h) /\ nth_error (body_lines b) 0 = Some l /\
    line_number l = 1 /\ line_selected l = true /\ line_latest l = true.
Proof.
  destruct (View scenarioC) as [[b h]|] eqn:Hv; [|vm_compute in Hv; discriminate Hv].
  destruct (nth_error (body_lines b) 0) as [l|] eqn:Hk.
  - destruct (View_lines scenarioC b h) as [_ H].
    + repeat split; vm_compute; discriminate.
    + vm_compute; split; discriminate.
    + exact Hv.
    + destruct (H 0%nat l Hk) as [Hn [Hs Hl]].
      exists b, h, l. split; [reflexivity|]. split; [exact Hk|].
      split; [rewrite Hn; reflexivity|]. split; [rewrite Hs; reflexivity|].
      rewrite Hl, Hn. reflexivity.
  - exfalso. vm_compute in Hv. injection Hv as <- _. discriminate Hk.
Defined.

(** ** What a key press leaves alone *)

Lemma select_frame (m m' : model) (i : Z) (c : option Cmd) :
  selectAt m i = Some (m', c) ->
  repos m' = repos m /\ error m' = error m /\ message m' = message m /\
  (loading m = true -> loading m' = true) /\
  (c = None \/ c = Some Quit \/ loading m' = true) /\
  c <> Some updateRepos /\ c <> Some loadRepos.
Proof.
  unfold selectAt, selectRepo, selectChart, selectVersion.
  destruct (m_state m);
    cbn [repos charts versions selectedRepo selectedChart selectedVersion
         set_state set_loading set_cursor set_selectedRepo
         set_selectedChart set_selectedVersion];
    try (intros H; injection H as <- <-; repeat split; auto; discriminate).
  - destruct (index (repos m) i); [|discriminate].
    intros H; injection H as <- <-. repeat split; auto; discriminate.
  - destruct (index (charts m) i); [|discriminate].
    intros H; injection H as <- <-. repeat split; auto; discriminate.
  - destruct (index (versions m) i); [|discriminate].
    intros H; injection H as <- <-. repeat split; auto; discriminate.
Qed.

(** No key press changes the repositories, the error text or the message,
    and none clears the loading flag; the only commands a key press
    returns are quit and the three fetches of a selection, and a fetch is
    returned only together with the loading flag set. *)
Theorem key_press_frame (m m' : model) (k : string) (c : option Cmd) :
  Update m (KeyMsg k) = Some (m', c) ->
  repos m' = repos m /\ error m' = error m /\ message m' = message m /\
  (loading m = true -> loading m' = true) /\
  (c = None \/ c = Some Quit \/ loading m' = true) /\
  c <> Some updateRepos /\ c <> Some loadRepos.
Proof.
  assert (Hsame : forall c0 : option Cmd,
             c0 = None \/ c0 = Some Quit ->
             Some (m, c0) = Some (m', c) ->
             repos m' = repos m /\ error m' = error m /\ message m' = message m /\
             (loading m = true -> loading m' = true) /\
             (c = None \/ c = Some Quit \/ loading m' = true) /\
             c <> Some updateRepos /\ c <> Some loadRepos).
  { intros c0 Hc0 H. injection H as <- <-. repeat split; auto.
    - destruct Hc0; auto.
    - destruct Hc0; subst; discriminate.
    - destruct Hc0; subst; discriminate. }
  destruct (quitKey k) eqn:Hq; [rewrite (Update_quitKey m k Hq); apply Hsame; auto|].
  destruct (upKey k) eqn:Hu.
  { rewrite (Update_upKey m k Hu), keyUp_moves.
    destruct (listScreen (m_state m) && (0 <? cursor m));
      [|apply Hsame; auto].
    intros H; injection H as <- <-. repeat split; auto; discriminate. }
  destruct (downKey k) eqn:Hd.
  { rewrite (Update_downKey m k Hd), keyDown_moves.
    destruct (listScreen (m_state m) && (cursor m <? sub (displayedLen m) 1));
      [|apply Hsame; auto].
    intros H; injection H as <- <-. repeat split; auto; discriminate. }
  destruct (selectKey k) eqn:Hs.
  { rewrite (Update_selectKey m k Hs).
    destruct (listScreen (m_state m)) eqn:Hls.
    - rewrite (keyEnter_selectAt m Hls).
      destruct (0 <? displayedLen m); [apply select_frame|apply Hsame; auto].
    - unfold keyEnter. destruct (m_state m); try discriminate Hls; apply Hsame; auto. }
  destruct (backKey k) eqn:Hb.
  { rewrite (Update_backKey m k Hb). unfold keyBack.
    destruct (m_state m); try (apply Hsame; auto);
      intros H; injection H as <- <-; repeat split; auto; discriminate. }
  rewrite (Update_otherKey m k Hq Hu Hd Hs Hb).
  destruct (keyDefault_cases m k) as [H|[H|[num [Hn H]]]]; rewrite H;
    try (apply Hsame; auto).
  unfold numberShortcut.
  destruct (m_state m) eqn:Hst; try (apply Hsame; auto);
    match goal with
    | |- (if ?a <? ?b then _ else _) = _ -> _ => destruct (a <? b); [|apply Hsame; auto]
    end;
    intros Hsel; apply (select_frame m m' (sub (add (getPageStart m) num) 1) c);
    unfold selectAt; rewrite Hst; exact Hsel.
Qed.

Lemma key_press_frame_witness :
  repos (set_state stateVersionList
           (set_loading true (set_cursor 0 (set_selectedChart 23 scenarioB)))) =
  repos scenarioB.
Proof.
  exact (proj1 (key_press_frame scenarioB _ "enter" _ eq_refl)).
Defined.

Lemma movement_keys_on_complete_witness :
  Update completeSession (KeyMsg "j") = Some (completeSession, None).
Proof.
  exact (movement_keys_on_complete completeSession "j" eq_refl eq_refl).
Defined.

(** ** Any session *)

Lemma select_bounds (m m' : model) (i : Z) (c : option Cmd) :
  bounds_ok m -> 0 <= i <= slice_max ->
  selectAt m i = Some (m', c) -> bounds_ok m'.
Proof.
  intros HB Hi. pose proof HB as [Hs [Hc [H1 [H2 H3]]]].
  unfold selectAt, selectRepo, selectChart, selectVersion.
  destruct (m_state m);
    cbn [repos charts versions selectedRepo selectedChart selectedVersion
         set_state set_loading set_cursor set_selectedRepo
         set_selectedChart set_selectedVersion];
    try (intros H; injection H as <- _; exact HB).
  - destruct (index (repos m) i); [|intros H; discriminate H].
    intros H; injection H as <- _.
    split; [exact Hs|]. simpl_model. unfold slice_max in *. repeat split; lia.
  - destruct (index (charts m) i); [|intros H; discriminate H].
    intros H; injection H as <- _.
    split; [exact Hs|]. simpl_model. unfold slice_max in *. repeat split; lia.
  - destruct (index (versions m) i); [|intros H; discriminate H].
    intros H; injection H as <- _.
    split; [exact Hs|]. simpl_model. unfold slice_max in *. repeat split; lia.
Qed.

Lemma displayedLen_bounds (m : model) :
  sizes_ok m -> 0 <= displayedLen m <= slice_max.
Proof.
  intros [H1 [H2 H3]]. unfold displayedLen.
  destruct (m_state m);
    try (unfold slice_max; lia);
    (split; [apply len_nonneg|assumption]).
Qed.

Lemma Update_bounds (m m' : model) (msg : Msg) (c : option Cmd) :
  bounds_ok m -> wf_msg msg = true ->
  Update m msg = Some (m', c) -> bounds_ok m'.
Proof.
  intros HB Hwf. pose proof HB as [Hs [Hc [H1 [H2 H3]]]].
  pose proof (displayedLen_bounds m Hs) as HL.
  assert (Hc1 : 0 <= cursor m <= max_int) by (unfold slice_max, max_int in *; lia).
  pose proof (getPageStart_bounds m Hc1) as Hp.
  assert (Hsame : forall c0 : option Cmd, Some (m, c0) = Some (m', c) -> bounds_ok m').
  { intros c0 H. injection H as <- _. exact HB. }
  assert (Hcur : forall (z : Z) (c0 : option Cmd),
             0 <= z <= slice_max ->
             Some (set_cursor z m, c0) = Some (m', c) -> bounds_ok m').
  { intros z c0 Hz H. injection H as <- _.
    split; [exact Hs|]. split; [exact Hz|]. split; [exact H1|split; [exact H2|exact H3]]. }
  destruct msg as [k| |rs|cs|vs|f|t|]; cbn [wf_msg] in Hwf.
  - destruct (quitKey k) eqn:Hq; [rewrite (Update_quitKey m k Hq); apply Hsame|].
    destruct (upKey k) eqn:Hu.
    { rewrite (Update_upKey m k Hu), keyUp_moves.
      destruct (listScreen (m_state m)); cbn [andb]; [|apply Hsame].
      destruct (Z.ltb_spec 0 (cursor m)); [|apply Hsame].
      rewrite sub_exact by (unfold in_range, min_int, max_int, slice_max in *; lia).
      apply Hcur. lia. }
    destruct (downKey k) eqn:Hd.
    { rewrite (Update_downKey m k Hd), keyDown_moves.
      destruct (listScreen (m_state m)); cbn [andb]; [|apply Hsame].
      rewrite sub_exact by (unfold in_range, min_int, max_int, slice_max in *; lia).
      destruct (Z.ltb_spec (cursor m) (displayedLen m - 1)); [|apply Hsame].
      rewrite add_exact by (unfold in_range, min_int, max_int, slice_max in *; lia).
      apply Hcur. lia. }
    destruct (selectKey k) eqn:Hsel.
    { rewrite (Update_selectKey m k Hsel).
      destruct (listScreen (m_state m)) eqn:Hls.
      - rewrite (keyEnter_selectAt m Hls).
        destruct (0 <? displayedLen m); [|apply Hsame].
        apply select_bounds; assumption.
      - unfold keyEnter. destruct (m_state m); try discriminate Hls; apply Hsame. }
    destruct (backKey k) eqn:Hb.
    { rewrite (Update_backKey m k Hb). unfold keyBack.
      destruct Hs as [Hs1 [Hs2 Hs3]].
      destruct (m_state m); try (apply Hsame);
        intros H; injection H as <- _;
        (split; [split; [exact Hs1|split; try assumption; unfold slice_max; cbn; lia]|]);
        simpl_model; unfold slice_max in *; repeat split; lia. }
    rewrite (Update_otherKey m k Hq Hu Hd Hsel Hb).
    destruct (keyDefault_cases m k) as [H|[H|[num [Hn H]]]]; rewrite H;
      try (apply Hsame).
    destruct (listScreen (m_state m)) eqn:Hls.
    + rewrite (numberShortcut_selectAt m num Hls Hn Hc).
      destruct (Z.ltb_spec (getPageStart m + num - 1) (displayedLen m)); [|apply Hsame].
      apply select_bounds; [exact HB|lia].
    + unfold numberShortcut. destruct (m_state m); try discriminate Hls; apply Hsame.
  - cbn [Update]. intros H; injection H as <- _. exact HB.
  - apply Z.leb_le in Hwf. destruct Hs as [Hs1 [Hs2 Hs3]].
    cbn [Update]. intros H; injection H as <- _.
    split; [repeat split; assumption|].
    simpl_model. unfold slice_max in *. repeat split; lia.
  - apply Z.leb_le in Hwf. destruct Hs as [Hs1 [Hs2 Hs3]].
    cbn [Update]. intros H; injection H as <- _.
    split; [repeat split; assumption|].
    simpl_model. unfold slice_max in *. repeat split; lia.
  - apply Z.leb_le in Hwf. destruct Hs as [Hs1 [Hs2 Hs3]].
    cbn [Update]. intros H; injection H as <- _.
    split; [repeat split; assumption|].
    simpl_model. unfold slice_max in *. repeat split; lia.
  - cbn [Update]. intros H; injection H as <- _. exact HB.
  - cbn [Update]. intros H; injection H as <- _. exact HB.
  - cbn [Update]. apply Hsame.
Qed.

Lemma run_bounds (es : list event) :
  forall s s' : sys,
    bounds_ok (mdl s) -> forallb wf_event es = true ->
    run s es = Some s' -> bounds_ok (mdl s').
Proof.
  induction es as [|e es IH]; intros s s' HB Hwf Hr; cbn [run forallb] in *.
  - injection Hr as <-. exact HB.
  - apply andb_prop in Hwf. destruct Hwf as [He Hes].
    destruct (step s e) as [s1|] eqn:Hs; [|discriminate].
    apply (IH s1 s'); [|exact Hes|exact Hr].
    destruct e as [k|i msg]; cbn [step wf_event] in *.
    + destruct (Update (mdl s) (KeyMsg k)) as [[m1 c1]|] eqn:Hu; [|discriminate].
      destruct (issue c1 (inflight s)); [|discriminate].
      injection Hs as <-. cbn [mdl].
      exact (Update_bounds (mdl s) m1 (KeyMsg k) c1 HB eq_refl Hu).
    + destruct (nth_error (inflight s) i); [|discriminate].
      destruct (delivers c msg); [|discriminate].
      destruct (Update (mdl s) msg) as [[m1 c1]|] eqn:Hu; [|discriminate].
      destruct (issue c1 (remove_nth i (inflight s))); [|discriminate].
      injection Hs as <-. cbn [mdl].
      exact (Update_bounds _ _ _ _ HB He Hu).
Qed.

(** In every session from program start, with or without keys during a
    fetch, the cursor and the three recorded selections are never
    negative (and never exceed the length a slice can have); hence the
    row loop of [View] never indexes out of range, whichever sequence it
    is run on. *)
Theorem any_session_bounds (es : list event) (s : sys) :
  forallb wf_event es = true -> run start es = Some s ->
  0 <= cursor (mdl s) /\ 0 <= selectedRepo (mdl s) /\
  0 <= selectedChart (mdl s) /\ 0 <= selectedVersion (mdl s) /\
  (exists rows, viewRows (mdl s) (repos (mdl s)) = Some rows) /\
  (exists rows, viewRows (mdl s) (charts (mdl s)) = Some rows) /\
  (exists rows, viewRows (mdl s) (versions (mdl s)) = Some rows).
Proof.
  intros Hwf Hr.
  assert (HB0 : bounds_ok (mdl start)).
  { unfold bounds_ok, sizes_ok, slice_max. cbn. lia. }
  destruct (run_bounds es start s HB0 Hwf Hr) as [[H1 [H2 H3]] [Hc [Hr1 [Hr2 Hr3]]]].
  repeat split; try lia.
  - destruct (viewRows_some (mdl s) (repos (mdl s)) Hc H1) as [rows [Hv _]]. eauto.
  - destruct (viewRows_some (mdl s) (charts (mdl s)) Hc H2) as [rows [Hv _]]. eauto.
  - destruct (viewRows_some (mdl s) (versions (mdl s)) Hc H3) as [rows [Hv _]]. eauto.
Qed.

Lemma any_session_bounds_witness :
  exists s rows,
    run start raceToStaleCursor = Some s /\
    0 <= cursor (mdl s) /\ viewRows (mdl s) (charts (mdl s)) = Some rows.
Proof.
  destruct (any_session_bounds raceToStaleCursor _ eq_refl
              ltac:(vm_compute; reflexivity)) as [Hc [_ [_ [_ [_ [[rows Hv] _]]]]]].
  eexists. exists rows. split; [vm_compute; reflexivity|].
  split; [exact Hc|exact Hv].
Defined.

(** For a cursor that is an index a slice can have, from 0 to [slice_max]
    (2^59) as [run_bounds] shows it to be in every session, [Update] panics
    in one situation only: a select key on a list screen whose sequence is
    not empty while the cursor is at or beyond its end.  Within that range
    movement, back, quit and number keys and all result messages never
    panic.  The range matters for the number keys alone: see
    [numberShortcut_wraps_beyond_slice_range] below. *)
Theorem Update_panics_only_on_stale_select (m : model) (msg : Msg) :
  0 <= cursor m <= slice_max ->
  Update m msg = None ->
  exists k,
    msg = KeyMsg k /\ selectKey k = true /\
    listScreen (m_state m) = true /\ 0 < displayedLen m <= cursor m.
Proof.
  intros Hc Hu.
  assert (Hc1 : 0 <= cursor m <= max_int) by (unfold slice_max, max_int in *; lia).
  pose proof (getPageStart_bounds m Hc1) as Hp.
  assert (Hsel : forall i, listScreen (m_state m) = true ->
             selectAt m i = None -> i < 0 \/ displayedLen m <= i).
  { intros i Hls Hn.
    destruct (Z.ltb_spec i 0) as [Hi0|Hi0]; [auto|].
    destruct (Z.leb_spec (displayedLen m) i) as [Hi1|Hi1]; [auto|].
    destruct (selectAt_in_range m i Hls ltac:(lia)) as [m' [c [Hsome _]]].
    congruence. }
  destruct msg as [k| |rs|cs|vs|f|t|]; try discriminate Hu.
  exists k. split; [reflexivity|].
  destruct (quitKey k) eqn:Hq; [rewrite (Update_quitKey m k Hq) in Hu; discriminate|].
  destruct (upKey k) eqn:Hup;
    [rewrite (Update_upKey m k Hup), keyUp_moves in Hu; discriminate|].
  destruct (downKey k) eqn:Hd;
    [rewrite (Update_downKey m k Hd), keyDown_moves in Hu; discriminate|].
  destruct (selectKey k) eqn:Hs.
  - split; [reflexivity|]. rewrite (Update_selectKey m k Hs) in Hu.
    destruct (listScreen (m_state m)) eqn:Hls.
    + split; [reflexivity|]. rewrite (keyEnter_selectAt m Hls) in Hu.
      destruct (Z.ltb_spec 0 (displayedLen m)); [|discriminate].
      destruct (Hsel (cursor m) eq_refl Hu); lia.
    + unfold keyEnter in Hu. destruct (m_state m); discriminate.
  - exfalso. destruct (backKey k) eqn:Hb.
    + rewrite (Update_backKey m k Hb) in Hu. unfold keyBack in Hu.
      destruct (m_state m); discriminate.
    + rewrite (Update_otherKey m k Hq Hup Hd Hs Hb) in Hu.
      destruct (keyDefault_cases m k) as [H|[H|[num [Hn H]]]]; rewrite H in Hu;
        try discriminate.
      destruct (listScreen (m_state m)) eqn:Hls.
      * rewrite (numberShortcut_selectAt m num Hls Hn Hc) in Hu.
        destruct (Z.ltb_spec (getPageStart m + num - 1) (displayedLen m));
          [|discriminate].
        destruct (Hsel _ eq_refl Hu); lia.
      * unfold numberShortcut in Hu. destruct (m_state m); discriminate.
Qed.

Lemma Update_panics_only_on_stale_select_witness :
  exists k,
    KeyMsg "enter" = KeyMsg k /\ selectKey k = true /\
    listScreen (m_state (set_cursor 2 scenarioC)) = true /\
    0 < displayedLen (set_cursor 2 scenarioC) <= cursor (set_cursor 2 scenarioC).
Proof.
  apply (Update_panics_only_on_stale_select (set_cursor 2 scenarioC) (KeyMsg "enter")).
  - vm_compute. split; discriminate.
  - reflexivity.
Defined.

(** Beyond [slice_max] the index of a number shortcut can wrap around: with
    the cursor at the largest [int], the key "9" computes the index
    [pageStart + 9 - 1], which overflows to the smallest [int], passes the
    test [idx < len(m.repos)] and indexes the slice out of range. *)
Remark numberShortcut_wraps_beyond_slice_range :
  0 <= cursor (set_cursor max_int tenRepos) /\
  slice_max < cursor (set_cursor max_int tenRepos) /\
  selectKey "9" = false /\
  Update (set_cursor max_int tenRepos) (KeyMsg "9") = None.
Proof.
  split; [vm_compute; discriminate|]. split; [vm_compute; reflexivity|].
  split; [reflexivity|]. vm_compute. reflexivity.
Qed.

(** [View] panics in one situation only (for a cursor that is not
    negative): on a loaded PackageList or VersionList screen whose
    recorded selection no longer indexes an item, the selected repository
    on either screen or the selected chart on VersionList. *)
Theorem View_panics_only_on_stale_selection (m : model) :
  sizes_ok m -> 0 <= cursor m <= slice_max ->
  View m = None ->
  loading m = false /\
  ((m_state m = stateChartList /\ index (repos m) (selectedRepo m) = None) \/
   (m_state m = stateVersionList /\
    (index (repos m) (selectedRepo m) = None \/
     index (charts m) (selectedChart m) = None))).
Proof.
  intros [H1 [H2 H3]] Hc Hv. unfold View in Hv.
  destruct (viewBody m) as [b|] eqn:Hb; [discriminate|]. clear Hv.
  unfold viewBody in Hb.
  destruct (m_state m); try discriminate Hb.
  - destruct (loading m); [discriminate|].
    destruct (viewRows_some m (repos m) Hc H1) as [rows [Hr _]].
    rewrite Hr in Hb. discriminate.
  - destruct (loading m); [discriminate|]. split; [reflexivity|]. left.
    split; [reflexivity|].
    destruct (index (repos m) (selectedRepo m)); [|reflexivity].
    destruct (viewRows_some m (charts m) Hc H2) as [rows [Hr _]].
    rewrite Hr in Hb. discriminate.
  - destruct (loading m); [discriminate|]. split; [reflexivity|]. right.
    split; [reflexivity|].
    destruct (index (charts m) (selectedChart m)); [|auto].
    destruct (index (repos m) (selectedRepo m)); [|auto].
    destruct (viewRows_some m (versions m) Hc H3) as [rows [Hr _]].
    rewrite Hr in Hb. discriminate.
Qed.

Lemma View_panics_only_on_stale_selection_witness :
  loading (set_selectedChart 4 scenarioC) = false /\
  ((m_state (set_selectedChart 4 scenarioC) = stateChartList /\
    index (repos (set_selectedChart 4 scenarioC))
          (selectedRepo (set_selectedChart 4 scenarioC)) = None) \/
   (m_state (set_selectedChart 4 scenarioC) = stateVersionList /\
    (index (repos (set_selectedChart 4 scenarioC))
           (selectedRepo (set_selectedChart 4 scenarioC)) = None \/
     index (charts (set_selectedChart 4 scenarioC))
           (selectedChart (set_selectedChart 4 scenarioC)) = None))).
Proof.
  apply (View_panics_only_on_stale_selection (set_selectedChart 4 scenarioC)).
  - repeat split; vm_compute; discriminate.
  - vm_compute. split; discriminate.
  - reflexivity.
Defined.
